(** * HuggingFaceFineTuner: a shallow embedding of [huggingface/base.py]

    The bolt sequences calls to collaborators (the input, output and state
    objects of the bolt, the [transformers] registry, the [Trainer], the hub)
    and wraps them in [try]/[except Exception] blocks.  The embedding keeps
    that shape: every collaborator call is an entry of a history, each call
    either returns or raises, and the methods are written in a small
    state-and-exception monad over the attributes of [self].

    [compute_metrics] is a pure function of its argument; it is embedded
    over binary64 scores and integer labels, together with the parts of
    [numpy] and [sklearn.metrics] it calls. *)

From Stdlib Require Import Bool Ascii String List ZArith QArith Lia Lqa Floats.
Import ListNotations.

Set Warnings "-inexact-float".
Close Scope Q_scope.
Local Open Scope string_scope.

(** ** Python builtins used by the bolt *)

Module Py.

(** [str.lower] on one byte of a UTF-8 string: the ASCII capitals are
    mapped, every other byte is left alone.  The methods use the result
    only in the test [== "local"], where this agrees with Python: the only
    non-ASCII characters whose lowercase form contains an ASCII letter
    give [k] or [i], and neither occurs in ["local"]. *)
Definition lower_char (c : ascii) : ascii :=
  let n := nat_of_ascii c in
  if (65 <=? n)%nat && (n <=? 90)%nat then ascii_of_nat (n + 32) else c.

(** [s.lower()] *)
Fixpoint lower (s : string) : string :=
  match s with
  | EmptyString => EmptyString
  | String c r => String (lower_char c) (lower r)
  end.

(** [s.startswith("/")] *)
Definition startswith_sep (s : string) : bool :=
  match s with
  | String "/" _ => true
  | _ => false
  end.

(** The last character of a string, if it has one. *)
Fixpoint last_char (s : string) : option ascii :=
  match s with
  | EmptyString => None
  | String c EmptyString => Some c
  | String _ r => last_char r
  end.

(** [s.endswith("/")] *)
Definition endswith_sep (s : string) : bool :=
  match last_char s with
  | Some "/"%char => true
  | _ => false
  end.

(** [not s] for a string: the empty string is falsy. *)
Definition str_falsy (s : string) : bool :=
  match s with
  | EmptyString => true
  | _ => false
  end.

(** [os.path.join(a, b)] of [posixpath], two arguments:
<<
    if b.startswith(sep):              path = b
    elif not path or path.endswith(sep): path += b
    else:                               path += sep + b
>> *)
Definition os_path_join (a b : string) : string :=
  if startswith_sep b then b
  else if str_falsy a || endswith_sep a then a ++ b
  else a ++ "/" ++ b.

(** Truthiness of an [Optional[str]]: [None] and [""] are falsy. *)
Definition truthy_opt_str (o : option string) : bool :=
  match o with
  | None => false
  | Some s => negb (str_falsy s)
  end.

(** [str(o)] of an [Optional[str]]. *)
Definition str_of_opt (o : option string) : string :=
  match o with
  | None => "None"
  | Some s => s
  end.

End Py.

(** ** Exceptions, objects and the outcome record *)

(** A raised Python exception.  [exn_is_Exception] tells whether its class
    derives from [Exception] (what [except Exception] tests; it is [false]
    for [KeyboardInterrupt], [SystemExit] and [GeneratorExit]);
    [exn_str] is [str(e)]. *)
Record exn : Type := PyExc {
  exn_is_Exception : bool;
  exn_class : string;
  exn_str : string
}.

(** An opaque Python object handed around by the bolt (a model, a tokenizer,
    a dataset, a [TrainingArguments], a [Trainer]): its identity and the
    value of [bool(obj)]. *)
Record pyobj : Type := PyObj {
  obj_id : nat;
  obj_truthy : bool
}.

(** The dict written to the state store: [{"success": True}] or
    [{"success": False, "exception": str(e)}]. *)
Record state_record : Type := StateRecord {
  success : bool;
  exception : option string
}.

(** Which of the two [from_pretrained] / [push_to_hub] call sites. *)
Inductive role : Type := RModel | RTokenizer.

Inductive log_level : Type := ERROR | INFO.

(** The keyword arguments of the [Trainer(...)] call of [fine_tune]
    ([compute_metrics] is always the bound method of the bolt). *)
Record trainer_kwargs : Type := TrainerKwargs {
  tk_model : option pyobj;
  tk_args : pyobj;
  tk_train_dataset : option pyobj;
  tk_eval_dataset : option pyobj;
  tk_tokenizer : option pyobj
}.

(** The keyword arguments of a [push_to_hub] call. *)
Record hub_kwargs : Type := HubKwargs {
  hk_repo_id : option string;
  hk_commit_message : option string;
  hk_token : option string;
  hk_private : bool;
  hk_create_pr : bool
}.

(** ** Calls to collaborators *)

(** One entry per call the bolt makes on a collaborator, with the arguments
    it passes, in program order. *)
Inductive event : Type :=
| EvGetattr (r : role) (class_name : string)
    (* getattr(__import__("transformers"), class_name).from_pretrained *)
| EvFromPretrained (r : role) (class_name : string) (location : string)
| EvInputGet                                     (* self.input.get() *)
| EvCopyFromRemote                               (* self.input.copy_from_remote() *)
| EvLoadDataset (dataset_path : string)          (* self.load_dataset(path) *)
| EvTrainingArguments (output_dir : string) (num_train_epochs : Z)
    (per_device_train_batch_size : Z) (kwargs : list (string * string))
| EvTrainer (kw : trainer_kwargs)                (* Trainer(...) *)
| EvTrain                                        (* trainer.train() *)
| EvSaveModel                                    (* trainer.save_model() *)
| EvEvaluate                                     (* trainer.evaluate() *)
| EvPushToHub (r : role) (target : pyobj) (kw : hub_kwargs)
| EvSetState (id : string) (record : state_record) (* self.state.set_state *)
| EvLog (level : log_level) (message : string).  (* self.log.error / info *)

Definition history : Type := list event.

(** What a call does: it returns a value or raises. *)
Inductive result (A : Type) : Type :=
| Returned (a : A)
| Raised (e : exn).
Arguments Returned {A} a.
Arguments Raised {A} e.

(** The collaborators of one bolt instance.  Each is a function of the calls
    made so far in the run, so a collaborator may keep state of its own and
    answer the same call differently the second time. *)
Record world : Type := World {
  self_id : string;                              (* self.id *)
  output_folder : string;                        (* self.output.output_folder *)
  transformers_getattr : history -> role -> string -> result unit;
  from_pretrained : history -> role -> string -> string -> result pyobj;
  input_get : history -> result string;
  input_copy_from_remote : history -> result unit;
  subclass_load_dataset : history -> string -> result (option pyobj);
  TrainingArguments :
    history -> string -> Z -> Z -> list (string * string) -> result pyobj;
  Trainer : history -> trainer_kwargs -> result pyobj;
  trainer_train : history -> result unit;
  trainer_save_model : history -> result unit;
  trainer_evaluate : history -> result string;   (* the dict, as printed *)
  push_to_hub : history -> role -> pyobj -> hub_kwargs -> result unit;
  state_set_state : history -> string -> state_record -> result unit
}.

(** ** The attributes of [self] *)

Record attrs : Type := Attrs {
  model_name : option string;
  tokenizer_name : option string;
  model_class : option string;
  tokenizer_class : option string;
  eval : bool;
  tokenizer : option pyobj;
  model : option pyobj;
  train_dataset : option pyobj;
  eval_dataset : option pyobj;
  output_dir : option string;
  num_train_epochs : option Z;
  per_device_train_batch_size : option Z;
  hf_repo_id : option string;
  hf_commit_message : option string;
  hf_token : option string;
  hf_private : bool;
  hf_create_pr : bool
}.

(** The attributes as [__init__] leaves them (the [hf_*] attributes and
    [output_dir] do not exist yet; they are written before they are read). *)
Definition init_attrs : attrs :=
  {| model_name := None; tokenizer_name := None;
     model_class := None; tokenizer_class := None;
     eval := false;
     tokenizer := None; model := None;
     train_dataset := None; eval_dataset := None;
     output_dir := None;
     num_train_epochs := None; per_device_train_batch_size := None;
     hf_repo_id := None; hf_commit_message := None; hf_token := None;
     hf_private := false; hf_create_pr := false |}.

Definition set_model (v : pyobj) (s : attrs) : attrs :=
  {| model_name := model_name s; tokenizer_name := tokenizer_name s;
     model_class := model_class s; tokenizer_class := tokenizer_class s;
     eval := eval s;
     tokenizer := tokenizer s; model := Some v;
     train_dataset := train_dataset s; eval_dataset := eval_dataset s;
     output_dir := output_dir s;
     num_train_epochs := num_train_epochs s;
     per_device_train_batch_size := per_device_train_batch_size s;
     hf_repo_id := hf_repo_id s; hf_commit_message := hf_commit_message s;
     hf_token := hf_token s;
     hf_private := hf_private s; hf_create_pr := hf_create_pr s |}.

Definition set_tokenizer (v : pyobj) (s : attrs) : attrs :=
  {| model_name := model_name s; tokenizer_name := tokenizer_name s;
     model_class := model_class s; tokenizer_class := tokenizer_class s;
     eval := eval s;
     tokenizer := Some v; model := model s;
     train_dataset := train_dataset s; eval_dataset := eval_dataset s;
     output_dir := output_dir s;
     num_train_epochs := num_train_epochs s;
     per_device_train_batch_size := per_device_train_batch_size s;
     hf_repo_id := hf_repo_id s; hf_commit_message := hf_commit_message s;
     hf_token := hf_token s;
     hf_private := hf_private s; hf_create_pr := hf_create_pr s |}.

Definition set_train_dataset (v : option pyobj) (s : attrs) : attrs :=
  {| model_name := model_name s; tokenizer_name := tokenizer_name s;
     model_class := model_class s; tokenizer_class := tokenizer_class s;
     eval := eval s;
     tokenizer := tokenizer s; model := model s;
     train_dataset := v; eval_dataset := eval_dataset s;
     output_dir := output_dir s;
     num_train_epochs := num_train_epochs s;
     per_device_train_batch_size := per_device_train_batch_size s;
     hf_repo_id := hf_repo_id s; hf_commit_message := hf_commit_message s;
     hf_token := hf_token s;
     hf_private := hf_private s; hf_create_pr := hf_create_pr s |}.

Definition set_eval_dataset (v : option pyobj) (s : attrs) : attrs :=
  {| model_name := model_name s; tokenizer_name := tokenizer_name s;
     model_class := model_class s; tokenizer_class := tokenizer_class s;
     eval := eval s;
     tokenizer := tokenizer s; model := model s;
     train_dataset := train_dataset s; eval_dataset := v;
     output_dir := output_dir s;
     num_train_epochs := num_train_epochs s;
     per_device_train_batch_size := per_device_train_batch_size s;
     hf_repo_id := hf_repo_id s; hf_commit_message := hf_commit_message s;
     hf_token := hf_token s;
     hf_private := hf_private s; hf_create_pr := hf_create_pr s |}.

(** The arguments of one [fine_tune] call. *)
Record fine_tune_args : Type := FineTuneArgs {
  arg_model_name : string;
  arg_tokenizer_name : string;
  arg_num_train_epochs : Z;
  arg_per_device_train_batch_size : Z;
  arg_model_class : string;
  arg_tokenizer_class : string;
  arg_eval : bool;
  arg_hf_repo_id : option string;
  arg_hf_commit_message : option string;
  arg_hf_token : option string;
  arg_hf_private : bool;
  arg_hf_create_pr : bool;
  arg_kwargs : list (string * string)
}.

(** ** The monad of the methods: attributes, history, exceptions *)

Definition M (A : Type) : Type :=
  attrs -> history -> result A * attrs * history.

Definition ret {A : Type} (a : A) : M A :=
  fun s h => (Returned a, s, h).

Definition bind {A B : Type} (m : M A) (k : A -> M B) : M B :=
  fun s h =>
    match m s h with
    | (Returned a, s', h') => k a s' h'
    | (Raised e, s', h') => (Raised e, s', h')
    end.

Definition raise {A : Type} (e : exn) : M A :=
  fun s h => (Raised e, s, h).

(** [try: body / except Exception as e: handler e].  An exception whose class
    does not derive from [Exception] passes through. *)
Definition try_except_Exception {A : Type}
    (body : M A) (handler : exn -> M A) : M A :=
  fun s h =>
    match body s h with
    | (Returned a, s', h') => (Returned a, s', h')
    | (Raised e, s', h') =>
        if exn_is_Exception e then handler e s' h' else (Raised e, s', h')
    end.

(** Reading and writing attributes of [self]. *)
Definition getattr {A : Type} (f : attrs -> A) : M A :=
  fun s h => (Returned (f s), s, h).

Definition setattr (g : attrs -> attrs) : M unit :=
  fun s h => (Returned tt, g s, h).

(** A call on a collaborator: it is entered in the history and returns or
    raises as the collaborator decides from the calls made before it. *)
Definition call {A : Type} (ev : event) (f : history -> result A) : M A :=
  fun s h => (f h, s, (h ++ [ev])%list).

(** [self.log.error(msg)] / [self.log.info(msg)]: the logging module does not
    raise into its caller. *)
Definition log (level : log_level) (message : string) : M unit :=
  fun s h => (Returned tt, s, (h ++ [EvLog level message])%list).

Declare Scope py_scope.
Delimit Scope py_scope with py.
Notation "x <- m ;; k" := (bind m (fun x => k))
  (at level 61, m at next level, right associativity) : py_scope.
Notation "m ;; k" := (bind m (fun _ => k))
  (at level 61, right associativity) : py_scope.
Local Open Scope py_scope.

(** The parts of a finished computation. *)
Definition outcome_of {A : Type} (r : result A * attrs * history) : result A :=
  fst (fst r).
Definition attrs_of {A : Type} (r : result A * attrs * history) : attrs :=
  snd (fst r).
Definition history_of {A : Type} (r : result A * attrs * history) : history :=
  snd r.

(** ** The methods of [HuggingFaceFineTuner] *)

Section Bolt.

Variable w : world.

(** [name.lower()] on an [Optional[str]] attribute. *)
Definition method_lower (name : option string) : M string :=
  match name with
  | Some n => ret (Py.lower n)
  | None =>
      raise (PyExc true "AttributeError"
               "'NoneType' object has no attribute 'lower'")
  end.

(** [getattr(__import__("transformers"), class_name).from_pretrained(arg)]:
    the callee is resolved first, then the argument is evaluated, then the
    call is made. *)
Definition load_pretrained (r : role) (class_name : string)
    (arg : M string) : M pyobj :=
  call (EvGetattr r class_name)
       (fun h => transformers_getattr w h r class_name) ;;
  location <- arg ;;
  call (EvFromPretrained r class_name location)
       (fun h => from_pretrained w h r class_name location).

(** [os.path.join(self.input.get(), suffix)] *)
Definition input_path (suffix : string) : M string :=
  base <- call EvInputGet (input_get w) ;;
  ret (Py.os_path_join base suffix).

Definition load_models : M unit :=
  try_except_Exception
    (name <- getattr model_name ;;
     lowered <- method_lower name ;;
     class_name <- getattr (fun s => Py.str_of_opt (model_class s)) ;;
     m <- (if lowered =? "local"
           then load_pretrained RModel class_name (input_path "/model")
           else load_pretrained RModel class_name (ret (Py.str_of_opt name))) ;;
     setattr (set_model m) ;;
     name <- getattr tokenizer_name ;;
     lowered <- method_lower name ;;
     class_name <- getattr (fun s => Py.str_of_opt (tokenizer_class s)) ;;
     t <- (if lowered =? "local"
           then load_pretrained RTokenizer class_name (input_path "/model")
           else load_pretrained RTokenizer class_name
                  (ret (Py.str_of_opt name))) ;;
     setattr (set_tokenizer t))
    (fun e =>
       log ERROR ("Failed to load model: " ++ exn_str e) ;;
       raise e).

Definition load_dataset (dataset_path : string) : M (option pyobj) :=
  call (EvLoadDataset dataset_path)
       (fun h => subclass_load_dataset w h dataset_path).

Definition preprocess_data : M unit :=
  try_except_Exception
    (call EvCopyFromRemote (input_copy_from_remote w) ;;
     train_dataset_path <- input_path "train" ;;
     eval_dataset_path <- input_path "eval" ;;
     d <- load_dataset train_dataset_path ;;
     setattr (set_train_dataset d) ;;
     ev <- getattr eval ;;
     if ev then
       d <- load_dataset eval_dataset_path ;;
       setattr (set_eval_dataset d)
     else ret tt)
    (fun e =>
       log ERROR ("Failed to preprocess data: " ++ exn_str e) ;;
       raise e).

Definition hub_kwargs_of (s : attrs) : hub_kwargs :=
  {| hk_repo_id := hf_repo_id s;
     hk_commit_message := hf_commit_message s;
     hk_token := hf_token s;
     hk_private := hf_private s;
     hk_create_pr := hf_create_pr s |}.

(** [if target: target.push_to_hub(repo_id=..., ...)], where [target] is
    [None] (falsy) or an object. *)
Definition push_if_truthy (r : role) (target : option pyobj) : M unit :=
  match target with
  | Some obj =>
      if obj_truthy obj then
        kw <- getattr hub_kwargs_of ;;
        call (EvPushToHub r obj kw) (fun h => push_to_hub w h r obj kw)
      else ret tt
  | None => ret tt
  end.

Definition upload_to_hf_hub : M unit :=
  try_except_Exception
    (m <- getattr model ;;
     push_if_truthy RModel m ;;
     t <- getattr tokenizer ;;
     push_if_truthy RTokenizer t)
    (fun e =>
       log ERROR ("Failed to upload model to huggingface hub: " ++ exn_str e) ;;
       raise e).

(** The thirteen attribute assignments that open the [try] block of
    [fine_tune]. *)
Definition assign_args (a : fine_tune_args) (s : attrs) : attrs :=
  {| model_name := Some (arg_model_name a);
     tokenizer_name := Some (arg_tokenizer_name a);
     model_class := Some (arg_model_class a);
     tokenizer_class := Some (arg_tokenizer_class a);
     eval := arg_eval a;
     tokenizer := tokenizer s; model := model s;
     train_dataset := train_dataset s; eval_dataset := eval_dataset s;
     output_dir := Some (output_folder w);
     num_train_epochs := Some (arg_num_train_epochs a);
     per_device_train_batch_size := Some (arg_per_device_train_batch_size a);
     hf_repo_id := arg_hf_repo_id a;
     hf_commit_message := arg_hf_commit_message a;
     hf_token := arg_hf_token a;
     hf_private := arg_hf_private a;
     hf_create_pr := arg_hf_create_pr a |}.

(** [os.path.join(self.output_dir, "model")] *)
Definition trainer_output_dir : M string :=
  d <- getattr output_dir ;;
  match d with
  | Some d => ret (Py.os_path_join d "model")
  | None =>
      raise (PyExc true "TypeError"
               "expected str, bytes or os.PathLike object, not NoneType")
  end.

(** The keyword arguments [fine_tune] builds for [Trainer]. *)
Definition trainer_kwargs_of (training_args : pyobj) (s : attrs)
    : trainer_kwargs :=
  {| tk_model := model s;
     tk_args := training_args;
     tk_train_dataset := train_dataset s;
     tk_eval_dataset := if eval s then eval_dataset s else None;
     tk_tokenizer := tokenizer s |}.

(** The body of the [try] block of [fine_tune]. *)
Definition fine_tune_try (a : fine_tune_args) : M unit :=
  setattr (assign_args a) ;;
  load_models ;;
  preprocess_data ;;
  dir <- trainer_output_dir ;;
  training_args <-
    call (EvTrainingArguments dir (arg_num_train_epochs a)
            (arg_per_device_train_batch_size a) (arg_kwargs a))
         (fun h => TrainingArguments w h dir (arg_num_train_epochs a)
                     (arg_per_device_train_batch_size a) (arg_kwargs a)) ;;
  kw <- getattr (trainer_kwargs_of training_args) ;;
  call (EvTrainer kw) (fun h => Trainer w h kw) ;;
  call EvTrain (trainer_train w) ;;
  call EvSaveModel (trainer_save_model w) ;;
  ev <- getattr eval ;;
  (if ev then
     eval_result <- call EvEvaluate (trainer_evaluate w) ;;
     log INFO ("Evaluation results: " ++ eval_result)
   else ret tt) ;;
  repo <- getattr hf_repo_id ;;
  if Py.truthy_opt_str repo then upload_to_hf_hub else ret tt.

Definition failure_record (e : exn) : state_record :=
  {| success := false; exception := Some (exn_str e) |}.

Definition success_record : state_record :=
  {| success := true; exception := None |}.

Definition set_state (record : state_record) : M unit :=
  call (EvSetState (self_id w) record)
       (fun h => state_set_state w h (self_id w) record).

(** The [except Exception as e] clause of [fine_tune]. *)
Definition fine_tune_except (e : exn) : M unit :=
  log ERROR ("Failed to fine tune model: " ++ exn_str e) ;;
  set_state (failure_record e) ;;
  raise e.

Definition fine_tune (a : fine_tune_args) : M unit :=
  try_except_Exception (fine_tune_try a) fine_tune_except ;;
  set_state success_record.

End Bolt.

(** One run of [fine_tune] on an instance whose attributes are [s]. *)
Definition run_fine_tune (w : world) (a : fine_tune_args) (s : attrs)
    : result unit * attrs * history :=
  fine_tune w a s [].

(** ** Reading a history *)

(** The records written to the state store, in order. *)
Fixpoint state_writes (h : history) : list state_record :=
  match h with
  | [] => []
  | EvSetState _ r :: t => r :: state_writes t
  | _ :: t => state_writes t
  end.

Definition is_set_state (ev : event) : bool :=
  match ev with
  | EvSetState _ _ => true
  | _ => false
  end.

Definition is_push_to_hub (ev : event) : bool :=
  match ev with
  | EvPushToHub _ _ _ => true
  | _ => false
  end.

Definition is_evaluate (ev : event) : bool :=
  match ev with
  | EvEvaluate => true
  | _ => false
  end.

(** The locations handed to [from_pretrained] at the call site [r]. *)
Fixpoint pretrained_locations (r : role) (h : history) : list string :=
  match h with
  | [] => []
  | EvFromPretrained RModel _ loc :: t =>
      match r with
      | RModel => loc :: pretrained_locations r t
      | RTokenizer => pretrained_locations r t
      end
  | EvFromPretrained RTokenizer _ loc :: t =>
      match r with
      | RModel => pretrained_locations r t
      | RTokenizer => loc :: pretrained_locations r t
      end
  | _ :: t => pretrained_locations r t
  end.

(** The paths handed to the dataset loader, in order. *)
Fixpoint loaded_paths (h : history) : list string :=
  match h with
  | [] => []
  | EvLoadDataset p :: t => p :: loaded_paths t
  | _ :: t => loaded_paths t
  end.

(** The [eval_dataset] arguments of the [Trainer] constructions, in order. *)
Fixpoint trainer_eval_datasets (h : history) : list (option pyobj) :=
  match h with
  | [] => []
  | EvTrainer kw :: t => tk_eval_dataset kw :: trainer_eval_datasets t
  | _ :: t => trainer_eval_datasets t
  end.

(** ** [compute_metrics] and the library functions it calls *)

(** A metric value.  The library returns binary64 numbers; the embedding keeps
    the exact ratio of the counts the number is computed from, and [NaN] for
    the mean of an empty array. *)
Inductive metric : Type :=
| Num (q : Q)
| NaN.

Module Numpy.

Definition is_nan (x : float) : bool := negb (PrimFloat.eqb x x).

(** The scan of [np.argmax] over one row of doubles: [mp] is the running
    maximum at index [max_ind]; an entry replaces it when [!(x <= mp)], and
    a NaN ends the scan. *)
Fixpoint argmax_scan (mp : float) (max_ind i : nat) (row : list float)
    : nat :=
  match row with
  | [] => max_ind
  | x :: rest =>
      if negb (PrimFloat.leb x mp) then
        if is_nan x then i else argmax_scan x i (S i) rest
      else argmax_scan mp max_ind (S i) rest
  end.

Definition argmax_row (row : list float) : result nat :=
  match row with
  | [] =>
      Raised (PyExc true "ValueError"
                "attempt to get argmax of an empty sequence")
  | x :: rest =>
      if is_nan x then Returned 0%nat
      else Returned (argmax_scan x 0 1 rest)
  end.

(** A two-dimensional array of doubles, of shape
    [(length rows, columns)]. *)
Record ndarray : Type := NdArray {
  columns : nat;
  rows : list (list float)
}.

Definition well_shaped (m : ndarray) : Prop :=
  Forall (fun row => length row = columns m) (rows m).

Fixpoint argmax_rows (m : list (list float)) : result (list nat) :=
  match m with
  | [] => Returned []
  | row :: rest =>
      match argmax_row row with
      | Raised e => Raised e
      | Returned i =>
          match argmax_rows rest with
          | Raised e => Raised e
          | Returned idx => Returned (i :: idx)
          end
      end
  end.

(** [np.argmax(m, axis=1)]: an axis of length 0 is refused, whatever the
    number of rows; an array with no rows gives an empty result. *)
Definition argmax_axis1 (m : ndarray) : result (list nat) :=
  match columns m with
  | O =>
      Raised (PyExc true "ValueError"
                "attempt to get argmax of an empty sequence")
  | S _ => argmax_rows (rows m)
  end.

End Numpy.

Module Sklearn.

Inductive target_type : Type := Binary | Multiclass.

(** The sorted set of labels of [unique_labels(y_true, y_pred)], up to
    order. *)
Definition present_labels (y_true y_pred : list Z) : list Z :=
  nodup Z.eq_dec (y_true ++ y_pred).

(** [_check_targets] on two 1-d integer arrays: the lengths must agree, and
    the target is multiclass as soon as more than two distinct values occur
    in the two arrays together.  (Message texts are abbreviated.) *)
Definition check_targets (y_true y_pred : list Z) : result target_type :=
  if negb (length y_true =? length y_pred)%nat then
    Raised (PyExc true "ValueError"
              "Found input variables with inconsistent numbers of samples")
  else if (2 <? length (present_labels y_true y_pred))%nat then
    Returned Multiclass
  else Returned Binary.

(** Number of positions where both arrays satisfy the test. *)
Definition count_pairs (test : Z -> Z -> bool) (y_true y_pred : list Z)
    : nat :=
  length (filter (fun p => test (fst p) (snd p)) (combine y_true y_pred)).

(** [np.average] of a boolean array with [k] true entries out of [n]. *)
Definition average (k n : nat) : metric :=
  match n with
  | O => NaN
  | S _ => Num (Qred (Z.of_nat k # Pos.of_nat n))
  end.

(** [accuracy_score(y_true, y_pred)] *)
Definition accuracy_score (y_true y_pred : list Z) : result metric :=
  match check_targets y_true y_pred with
  | Raised e => Raised e
  | Returned _ =>
      Returned (average (count_pairs Z.eqb y_true y_pred) (length y_true))
  end.

(** [_prf_divide] with the default [zero_division="warn"]: a zero
    denominator gives 0.0. *)
Definition prf_divide (numerator denominator : nat) : Q :=
  match denominator with
  | O => 0%Q
  | S _ => Qred (Z.of_nat numerator # Pos.of_nat denominator)
  end.

(** F1 from precision and recall, a zero denominator replaced by 1.  The
    library computes this quotient in binary64 from the rounded precision and
    recall; the value kept here is the exact one, of which the library's
    result is an approximation up to rounding.  Membership in [0,1] and the
    values 0 and 1 carry over to binary64; the order between F1 and
    precision or recall does not (at precision = recall = 0.8 the library
    returns 0.8000000000000002), and nothing below states it. *)
Definition f_score (precision recall : Q) : Q :=
  let denom := (precision + recall)%Q in
  if Qeq_bool denom 0 then 0%Q
  else Qred (2 * precision * recall / denom)%Q.

(** [precision_recall_fscore_support(y_true, y_pred, average="binary")]
    with the default [pos_label=1]: precision, recall and F1 of the class
    1. *)
Definition precision_recall_fscore_support_binary (y_true y_pred : list Z)
    : result (metric * metric * metric) :=
  match check_targets y_true y_pred with
  | Raised e => Raised e
  | Returned Multiclass =>
      Raised (PyExc true "ValueError"
                "Target is multiclass but average='binary'")
  | Returned Binary =>
      let present := present_labels y_true y_pred in
      if negb (existsb (Z.eqb 1) present) && (2 <=? length present)%nat then
        Raised (PyExc true "ValueError" "pos_label=1 is not a valid label")
      else
        let tp_sum :=
          count_pairs (fun t p => Z.eqb t 1 && Z.eqb p 1) y_true y_pred in
        let pred_sum := count_pairs (fun _ p => Z.eqb p 1) y_true y_pred in
        let true_sum := count_pairs (fun t _ => Z.eqb t 1) y_true y_pred in
        let precision := prf_divide tp_sum pred_sum in
        let recall := prf_divide tp_sum true_sum in
        Returned (Num precision, Num recall, Num (f_score precision recall))
  end.

End Sklearn.

(** The dict [compute_metrics] returns. *)
Record metrics : Type := Metrics {
  accuracy : metric;
  precision : metric;
  recall : metric;
  f1 : metric
}.

(** An [EvalPrediction]: the score matrix and the labels. *)
Definition EvalPrediction : Type := (Numpy.ndarray * list Z)%type.

(** The class predicted for each row. *)
Definition argmax_predictions (predictions : Numpy.ndarray)
    : result (list Z) :=
  match Numpy.argmax_axis1 predictions with
  | Raised e => Raised e
  | Returned idx => Returned (map Z.of_nat idx)
  end.

Definition compute_metrics (eval_pred : EvalPrediction) : result metrics :=
  let '(predictions, labels) := eval_pred in
  match argmax_predictions predictions with
  | Raised e => Raised e
  | Returned predictions =>
      match Sklearn.accuracy_score labels predictions with
      | Raised e => Raised e
      | Returned acc =>
          match Sklearn.precision_recall_fscore_support_binary
                  labels predictions with
          | Raised e => Raised e
          | Returned (p, _, _) =>
              match Sklearn.precision_recall_fscore_support_binary
                      labels predictions with
              | Raised e => Raised e
              | Returned (_, r, _) =>
                  match Sklearn.precision_recall_fscore_support_binary
                          labels predictions with
                  | Raised e => Raised e
                  | Returned (_, _, f) =>
                      Returned {| accuracy := acc; precision := p;
                                  recall := r; f1 := f |}
                  end
              end
          end
      end
  end.

(** A metric that is a number between 0 and 1. *)
Definition in_unit_interval (m : metric) : Prop :=
  match m with
  | Num q => (0 <= q /\ q <= 1)%Q
  | NaN => False
  end.

(** The standard formulas of binary classification over the four cells of
    the confusion matrix, as the specification words them. *)
Module Standard.

Definition confusion (cell : Z -> Z -> bool) (labels predictions : list Z)
    : Z :=
  Z.of_nat (Sklearn.count_pairs cell labels predictions).

Definition tp := confusion (fun t p => Z.eqb t 1 && Z.eqb p 1).
Definition fp := confusion (fun t p => Z.eqb t 0 && Z.eqb p 1).
Definition fn := confusion (fun t p => Z.eqb t 1 && Z.eqb p 0).
Definition tn := confusion (fun t p => Z.eqb t 0 && Z.eqb p 0).

Definition ratio (n d : Z) : Q := (inject_Z n / inject_Z d)%Q.

Definition accuracy (l p : list Z) : Q :=
  ratio (tp l p + tn l p) (tp l p + tn l p + fp l p + fn l p).
Definition precision (l p : list Z) : Q :=
  ratio (tp l p) (tp l p + fp l p).
Definition recall (l p : list Z) : Q :=
  ratio (tp l p) (tp l p + fn l p).
Definition f1 (l p : list Z) : Q :=
  ratio (2 * tp l p) (2 * tp l p + fp l p + fn l p).

End Standard.

(** A metric equal, as a rational, to a given number. *)
Definition metric_is (m : metric) (q : Q) : Prop :=
  match m with
  | Num x => (x == q)%Q
  | NaN => False
  end.

(** A label, or a predicted class, of a two-class problem. *)
Definition binary (z : Z) : Prop := z = 0%Z \/ z = 1%Z.

(** ** The inputs used in the examples *)

(** Two rows, and a label that is neither 0 nor 1. *)
Definition three_class_input : EvalPrediction :=
  (Numpy.NdArray 2 [[0.9; 0.1]; [0.2; 0.8]]%float, [0; 2]%Z).

(** A matrix of shape (0, 2), with no labels. *)
Definition no_rows_input : EvalPrediction := (Numpy.NdArray 2 [], []).

(** Two rows, both labels 0. *)
Definition one_class_input : EvalPrediction :=
  (Numpy.NdArray 2 [[0.9; 0.1]; [0.2; 0.8]]%float, [0; 0]%Z).

Definition example_predictions : Numpy.ndarray :=
  Numpy.NdArray 2 [[0.9; 0.1]; [0.2; 0.8]; [0.3; 0.7]]%float.

Definition example_labels : list Z := [0; 1; 0]%Z.

(** A bolt whose collaborators all return: [input.get()] gives [base], the
    registry hands out a model and a tokenizer, the loader a dataset. *)
Definition quiet_world (base : string) : world :=
  {| self_id := "bolt-1";
     output_folder := "/data/out";
     transformers_getattr := fun _ _ _ => Returned tt;
     from_pretrained := fun _ r _ _ =>
       match r with
       | RModel => Returned (PyObj 1 true)
       | RTokenizer => Returned (PyObj 2 true)
       end;
     input_get := fun _ => Returned base;
     input_copy_from_remote := fun _ => Returned tt;
     subclass_load_dataset := fun _ _ => Returned (Some (PyObj 3 true));
     TrainingArguments := fun _ _ _ _ _ => Returned (PyObj 4 true);
     Trainer := fun _ _ => Returned (PyObj 5 true);
     trainer_train := fun _ => Returned tt;
     trainer_save_model := fun _ => Returned tt;
     trainer_evaluate := fun _ => Returned "{'eval_loss': 0.25}";
     push_to_hub := fun _ _ _ _ => Returned tt;
     state_set_state := fun _ _ _ => Returned tt |}.

(** The same bolt with another dataset loader. *)
Definition with_loader (loader : string -> result (option pyobj))
    (w : world) : world :=
  {| self_id := self_id w;
     output_folder := output_folder w;
     transformers_getattr := transformers_getattr w;
     from_pretrained := from_pretrained w;
     input_get := input_get w;
     input_copy_from_remote := input_copy_from_remote w;
     subclass_load_dataset := fun _ p => loader p;
     TrainingArguments := TrainingArguments w;
     Trainer := Trainer w;
     trainer_train := trainer_train w;
     trainer_save_model := trainer_save_model w;
     trainer_evaluate := trainer_evaluate w;
     push_to_hub := push_to_hub w;
     state_set_state := state_set_state w |}.

(** The same bolt with another state store. *)
Definition with_state_store (store : state_record -> result unit)
    (w : world) : world :=
  {| self_id := self_id w;
     output_folder := output_folder w;
     transformers_getattr := transformers_getattr w;
     from_pretrained := from_pretrained w;
     input_get := input_get w;
     input_copy_from_remote := input_copy_from_remote w;
     subclass_load_dataset := subclass_load_dataset w;
     TrainingArguments := TrainingArguments w;
     Trainer := Trainer w;
     trainer_train := trainer_train w;
     trainer_save_model := trainer_save_model w;
     trainer_evaluate := trainer_evaluate w;
     push_to_hub := push_to_hub w;
     state_set_state := fun _ _ r => store r |}.

(** The loader of the base class itself (line 95 of the source). *)
Definition abstract_load_dataset (dataset_path : string)
    : result (option pyobj) :=
  Raised (PyExc true "NotImplementedError" "Subclasses should implement this!").

(** A loader that fails on a bare [assert]: [str(AssertionError())] is the
    empty string. *)
Definition asserting_load_dataset (dataset_path : string)
    : result (option pyobj) :=
  Raised (PyExc true "AssertionError" "").

(** A state store that cannot be reached. *)
Definition unreachable_store (record : state_record) : result unit :=
  Raised (PyExc true "ConnectionError" "state store unreachable").

(** [fine_tune("bert-base-uncased", "bert-base-uncased", 3, 8)], the other
    parameters at their defaults. *)
Definition default_args : fine_tune_args :=
  {| arg_model_name := "bert-base-uncased";
     arg_tokenizer_name := "bert-base-uncased";
     arg_num_train_epochs := 3;
     arg_per_device_train_batch_size := 8;
     arg_model_class := "AutoModel";
     arg_tokenizer_class := "AutoTokenizer";
     arg_eval := false;
     arg_hf_repo_id := None;
     arg_hf_commit_message := None;
     arg_hf_token := None;
     arg_hf_private := true;
     arg_hf_create_pr := false;
     arg_kwargs := [] |}.

(** [fine_tune("local", "Local", 3, 8)] *)
Definition local_args : fine_tune_args :=
  {| arg_model_name := "local";
     arg_tokenizer_name := "Local";
     arg_num_train_epochs := 3;
     arg_per_device_train_batch_size := 8;
     arg_model_class := "AutoModel";
     arg_tokenizer_class := "AutoTokenizer";
     arg_eval := false;
     arg_hf_repo_id := None;
     arg_hf_commit_message := None;
     arg_hf_token := None;
     arg_hf_private := true;
     arg_hf_create_pr := false;
     arg_kwargs := [] |}.

(** [fine_tune(..., eval=True, hf_repo_id="org/model")] *)
Definition publishing_args : fine_tune_args :=
  {| arg_model_name := "bert-base-uncased";
     arg_tokenizer_name := "bert-base-uncased";
     arg_num_train_epochs := 3;
     arg_per_device_train_batch_size := 8;
     arg_model_class := "AutoModel";
     arg_tokenizer_class := "AutoTokenizer";
     arg_eval := true;
     arg_hf_repo_id := Some "org/model";
     arg_hf_commit_message := Some "fine-tuned";
     arg_hf_token := Some "hf_token";
     arg_hf_private := true;
     arg_hf_create_pr := false;
     arg_kwargs := [] |}.

(** The attributes an instance holds after a run with [eval=True]: an
    evaluation dataset is still stored on it. *)
Definition attrs_after_eval_run : attrs :=
  set_eval_dataset (Some (PyObj 7 true))
    (set_train_dataset (Some (PyObj 3 true))
       (assign_args (quiet_world "/data/in") publishing_args init_attrs)).

(** ** What a computation may enter in the history *)

(** The attribute a call site takes its name, and its class, from. *)
Definition role_name (r : role) (s : attrs) : option string :=
  match r with
  | RModel => model_name s
  | RTokenizer => tokenizer_name s
  end.

Definition role_class (r : role) (s : attrs) : option string :=
  match r with
  | RModel => model_class s
  | RTokenizer => tokenizer_class s
  end.

Definition arg_name (r : role) (a : fine_tune_args) : string :=
  match r with
  | RModel => arg_model_name a
  | RTokenizer => arg_tokenizer_name a
  end.

(** Started on attributes [s] and history [h], the computation [m] appends
    only events that satisfy [ok], and leaves attributes that satisfy [I]. *)
Definition emits_at {A : Type} (I : attrs -> Prop) (ok : event -> Prop)
    (m : M A) (s : attrs) (h : history) : Prop :=
  exists evs : list event,
    history_of (m s h) = (h ++ evs)%list /\
    Forall ok evs /\
    I (attrs_of (m s h)).

(** The conditions under which the [try] block of [fine_tune] keeps an
    invariant [I] of the attributes and enters only [ok] events: one field
    per assignment and per call of the methods, each under the test that
    guards it in the source. *)
Record frame (w : world) (I : attrs -> Prop) (ok : event -> Prop) : Prop := {
  fr_set_model : forall v s, I s -> I (set_model v s);
  fr_set_tokenizer : forall v s, I s -> I (set_tokenizer v s);
  fr_set_train_dataset : forall v s, I s -> I (set_train_dataset v s);
  fr_set_eval_dataset : forall v s, I s -> I (set_eval_dataset v s);
  fr_getattr : forall r c, ok (EvGetattr r c);
  fr_input_get : ok EvInputGet;
  fr_copy_from_remote : ok EvCopyFromRemote;
  fr_log : forall l msg, ok (EvLog l msg);
  fr_training_arguments : forall d n b kw, ok (EvTrainingArguments d n b kw);
  fr_train : ok EvTrain;
  fr_save_model : ok EvSaveModel;
  fr_from_pretrained :
    forall s r n base, I s -> role_name r s = Some n ->
      ok (EvFromPretrained r (Py.str_of_opt (role_class r s))
            (if Py.lower n =? "local"
             then Py.os_path_join base "/model" else n));
  fr_load_train : forall base, ok (EvLoadDataset (Py.os_path_join base "train"));
  fr_load_eval :
    forall s base, I s -> eval s = true ->
      ok (EvLoadDataset (Py.os_path_join base "eval"));
  fr_trainer :
    forall s training_args, I s -> ok (EvTrainer (trainer_kwargs_of training_args s));
  fr_evaluate : forall s, I s -> eval s = true -> ok EvEvaluate;
  fr_push_to_hub :
    forall s r obj, I s -> Py.truthy_opt_str (hf_repo_id s) = true ->
      ok (EvPushToHub r obj (hub_kwargs_of s))
}.

(** * Contracts of the methods *)

Local Open Scope list_scope.

(** [m], started on [s] and [h], appends events [evs] and ends with an
    outcome and attributes such that [Q] holds of the three. *)
Definition wp {A : Type} (m : M A) (s : attrs) (h : history)
    (Q : result A -> attrs -> list event -> Prop) : Prop :=
  exists evs : list event,
    history_of (m s h) = h ++ evs /\
    Q (outcome_of (m s h)) (attrs_of (m s h)) evs.

(** Log lines. *)
Definition is_log (ev : event) : bool :=
  match ev with EvLog _ _ => true | _ => false end.

(** The events [load_models] can make: registry lookups, [from_pretrained],
    [input.get()] and its log line. *)
Definition is_load_models_event (ev : event) : bool :=
  match ev with
  | EvGetattr _ _ | EvFromPretrained _ _ _ | EvInputGet | EvLog _ _ => true
  | _ => false
  end.

(** The events [preprocess_data] can make. *)
Definition is_preprocess_event (ev : event) : bool :=
  match ev with
  | EvCopyFromRemote | EvInputGet | EvLoadDataset _ | EvLog _ _ => true
  | _ => false
  end.

(** The events [upload_to_hf_hub] can make. *)
Definition is_upload_event (ev : event) : bool :=
  match ev with
  | EvPushToHub _ _ _ | EvLog _ _ => true
  | _ => false
  end.

(** The contract of the three [except] clauses: nothing is logged unless an
    [Exception] escapes the body, and then one line, last, with the prefix of
    the method and [str(e)] of the exception that propagates. *)
Definition logs_and_reraises (prefix : string) (r : result unit)
    (evs : list event) : Prop :=
  exists body_events : list event,
    filter is_log body_events = [] /\
    evs = body_events ++
          match r with
          | Returned _ => []
          | Raised e =>
              if exn_is_Exception e
              then [EvLog ERROR (prefix ++ exn_str e)%string]
              else []
          end.

(** The events [if target: target.push_to_hub(...)] makes. *)
Definition pushes (r : role) (target : option pyobj) (kw : hub_kwargs)
    : list event :=
  match target with
  | Some obj => if obj_truthy obj then [EvPushToHub r obj kw] else []
  | None => []
  end.

(** The configuration attributes of an instance: the datasets and the two
    handles are blanked. *)
Definition config_only (s : attrs) : attrs :=
  {| model_name := model_name s; tokenizer_name := tokenizer_name s;
     model_class := model_class s; tokenizer_class := tokenizer_class s;
     eval := eval s;
     tokenizer := None; model := None;
     train_dataset := None; eval_dataset := None;
     output_dir := output_dir s;
     num_train_epochs := num_train_epochs s;
     per_device_train_batch_size := per_device_train_batch_size s;
     hf_repo_id := hf_repo_id s; hf_commit_message := hf_commit_message s;
     hf_token := hf_token s;
     hf_private := hf_private s; hf_create_pr := hf_create_pr s |}.

(** The same bolt with another [trainer.train()]. *)
Definition with_train (train : result unit) (w : world) : world :=
  {| self_id := self_id w;
     output_folder := output_folder w;
     transformers_getattr := transformers_getattr w;
     from_pretrained := from_pretrained w;
     input_get := input_get w;
     input_copy_from_remote := input_copy_from_remote w;
     subclass_load_dataset := subclass_load_dataset w;
     TrainingArguments := TrainingArguments w;
     Trainer := Trainer w;
     trainer_train := fun _ => train;
     trainer_save_model := trainer_save_model w;
     trainer_evaluate := trainer_evaluate w;
     push_to_hub := push_to_hub w;
     state_set_state := state_set_state w |}.

(** The same bolt with another hub. *)
Definition with_hub (push : role -> result unit) (w : world) : world :=
  {| self_id := self_id w;
     output_folder := output_folder w;
     transformers_getattr := transformers_getattr w;
     from_pretrained := from_pretrained w;
     input_get := input_get w;
     input_copy_from_remote := input_copy_from_remote w;
     subclass_load_dataset := subclass_load_dataset w;
     TrainingArguments := TrainingArguments w;
     Trainer := Trainer w;
     trainer_train := trainer_train w;
     trainer_save_model := trainer_save_model w;
     trainer_evaluate := trainer_evaluate w;
     push_to_hub := fun _ r _ _ => push r;
     state_set_state := state_set_state w |}.

(** Ctrl-C: a [BaseException] that is not an [Exception]. *)
Definition keyboard_interrupt : exn :=
  PyExc false "KeyboardInterrupt" EmptyString.

(** [fine_tune(..., hf_repo_id=...)] with the empty string *)
Definition empty_repo_args : fine_tune_args :=
  {| arg_model_name := "bert-base-uncased";
     arg_tokenizer_name := "bert-base-uncased";
     arg_num_train_epochs := 3;
     arg_per_device_train_batch_size := 8;
     arg_model_class := "AutoModel";
     arg_tokenizer_class := "AutoTokenizer";
     arg_eval := false;
     arg_hf_repo_id := Some EmptyString;
     arg_hf_commit_message := None;
     arg_hf_token := None;
     arg_hf_private := true;
     arg_hf_create_pr := false;
     arg_kwargs := [] |}.

(** How far a run has come: the last collaborator call of the pipeline it
    has made. *)
Inductive phase : Type :=
| Start
| AtModel            (* from_pretrained for the model *)
| AtTokenizer        (* from_pretrained for the tokenizer *)
| AtCopy             (* input.copy_from_remote() *)
| AtTrainData        (* load_dataset(train path) *)
| AtEvalData         (* load_dataset(eval path) *)
| AtArguments        (* TrainingArguments(...) *)
| AtTrainer          (* Trainer(...) *)
| AtTrain            (* trainer.train() *)
| AtSave             (* trainer.save_model() *)
| AtEvaluate         (* trainer.evaluate() *)
| AtPushModel        (* model.push_to_hub(...) *)
| AtPushTokenizer    (* tokenizer.push_to_hub(...) *)
| AtRecord.          (* state.set_state(...) *)

(** The calls the source allows next.  Registry lookups, [input.get()] and
    log lines may come at any point before the outcome is recorded; the
    outcome may be recorded at any point, once, and nothing follows it. *)
Definition step (p : phase) (ev : event) : option phase :=
  match p, ev with
  | AtRecord, _ => None
  | _, EvSetState _ _ => Some AtRecord
  | _, EvGetattr _ _ => Some p
  | _, EvInputGet => Some p
  | _, EvLog _ _ => Some p
  | Start, EvFromPretrained RModel _ _ => Some AtModel
  | AtModel, EvFromPretrained RTokenizer _ _ => Some AtTokenizer
  | AtTokenizer, EvCopyFromRemote => Some AtCopy
  | AtCopy, EvLoadDataset _ => Some AtTrainData
  | AtTrainData, EvLoadDataset _ => Some AtEvalData
  | AtTrainData, EvTrainingArguments _ _ _ _ => Some AtArguments
  | AtEvalData, EvTrainingArguments _ _ _ _ => Some AtArguments
  | AtArguments, EvTrainer _ => Some AtTrainer
  | AtTrainer, EvTrain => Some AtTrain
  | AtTrain, EvSaveModel => Some AtSave
  | AtSave, EvEvaluate => Some AtEvaluate
  | AtSave, EvPushToHub RModel _ _ => Some AtPushModel
  | AtEvaluate, EvPushToHub RModel _ _ => Some AtPushModel
  | AtSave, EvPushToHub RTokenizer _ _ => Some AtPushTokenizer
  | AtEvaluate, EvPushToHub RTokenizer _ _ => Some AtPushTokenizer
  | AtPushModel, EvPushToHub RTokenizer _ _ => Some AtPushTokenizer
  | _, _ => None
  end.

(** The phase a history leads to from [p], if the automaton accepts it. *)
Fixpoint follow (p : phase) (h : history) : option phase :=
  match h with
  | [] => Some p
  | ev :: rest =>
      match step p ev with
      | Some q => follow q rest
      | None => None
      end
  end.

(** The position of a phase in the pipeline. *)
Definition rank (p : phase) : nat :=
  match p with
  | Start => 0 | AtModel => 1 | AtTokenizer => 2 | AtCopy => 3
  | AtTrainData => 4 | AtEvalData => 5 | AtArguments => 6 | AtTrainer => 7
  | AtTrain => 8 | AtSave => 9 | AtEvaluate => 10 | AtPushModel => 11
  | AtPushTokenizer => 12 | AtRecord => 13
  end.

(** [evs] leads from [p] to a phase in which the outcome can still be
    recorded. *)
Definition leads (p : phase) (evs : list event) (q : phase) : Prop :=
  follow p evs = Some q /\ q <> AtRecord.

(** The calls [getattr(transformers, class_name).from_pretrained(...)] makes
    for the name [name], when [input.get()] answers [base]. *)
Definition fetch (r : role) (class_name name base : string) : list event :=
  EvGetattr r class_name
  :: (if Py.lower name =? "local"
      then [EvInputGet;
            EvFromPretrained r class_name (Py.os_path_join base "/model")]
      else [EvFromPretrained r class_name name]).

(** The calls of a [try] block that ran to its end: [s'] are the attributes
    the instance holds then, the strings are what [input.get()] answered at
    its four calls, [training_args] and [eval_result] what
    [TrainingArguments(...)] and [trainer.evaluate()] returned. *)
Definition successful_try_events (w : world) (a : fine_tune_args) (s' : attrs)
    (base base' p1 p2 : string) (training_args : pyobj) (eval_result : string)
    : list event :=
  fetch RModel (arg_model_class a) (arg_model_name a) base
  ++ fetch RTokenizer (arg_tokenizer_class a) (arg_tokenizer_name a) base'
  ++ [EvCopyFromRemote; EvInputGet; EvInputGet;
      EvLoadDataset (Py.os_path_join p1 "train")]
  ++ (if arg_eval a then [EvLoadDataset (Py.os_path_join p2 "eval")] else [])
  ++ [EvTrainingArguments (Py.os_path_join (output_folder w) "model")
        (arg_num_train_epochs a) (arg_per_device_train_batch_size a)
        (arg_kwargs a);
      EvTrainer (trainer_kwargs_of training_args s');
      EvTrain; EvSaveModel]
  ++ (if arg_eval a
      then [EvEvaluate; EvLog INFO ("Evaluation results: " ++ eval_result)%string]
      else [])
  ++ (if Py.truthy_opt_str (arg_hf_repo_id a)
      then pushes RModel (model s') (hub_kwargs_of s')
           ++ pushes RTokenizer (tokenizer s') (hub_kwargs_of s')
      else []).

(** What a call of the trainer section and of the hub carries, relative to
    the arguments of the run and to the attributes [s'] the instance holds
    when the run has ended. *)
Definition carries (w : world) (a : fine_tune_args) (s' : attrs)
    (ev : event) : Prop :=
  match ev with
  | EvTrainingArguments d n b kw =>
      d = Py.os_path_join (output_folder w) "model" /\
      n = arg_num_train_epochs a /\
      b = arg_per_device_train_batch_size a /\
      kw = arg_kwargs a
  | EvTrainer kw =>
      tk_model kw = model s' /\ tk_tokenizer kw = tokenizer s' /\
      tk_train_dataset kw = train_dataset s' /\
      tk_eval_dataset kw = (if arg_eval a then eval_dataset s' else None)
  | EvPushToHub RModel obj kw =>
      model s' = Some obj /\ kw = hub_kwargs_of s'
  | EvPushToHub RTokenizer obj kw =>
      tokenizer s' = Some obj /\ kw = hub_kwargs_of s'
  | _ => True
  end.

(** The events of [load_models] and [preprocess_data]. *)
Definition is_prelude_event (ev : event) : bool :=
  is_load_models_event ev || is_preprocess_event ev.

(** The attributes of an instance after a run that returned. *)
Definition attrs_after_publishing_run : attrs :=
  attrs_of (run_fine_tune (quiet_world "/data/in") publishing_args init_attrs).

(** A hub that refuses the token. *)
Definition unauthorized : exn := PyExc true "HfHubHTTPError" "401 Unauthorized".


(** A matrix with three columns. *)
Definition three_column_scores : Numpy.ndarray :=
  Numpy.NdArray 3 [[0.1; 0.2; 0.7]; [0.5; 0.3; 0.2]]%float.

(** * Properties *)

Local Open Scope list_scope.

(** ** Strings and paths *)

Example lower_LOCAL : Py.lower "LoCaL" = "local".
Proof. reflexivity. Qed.

Example join_train : Py.os_path_join "/data/in" "train" = "/data/in/train".
Proof. reflexivity. Qed.

Example join_train_slash :
  Py.os_path_join "/data/in/" "train" = "/data/in/train".
Proof. reflexivity. Qed.

Example join_empty_base : Py.os_path_join "" "train" = "train".
Proof. reflexivity. Qed.

(** A second component that starts with the separator replaces the first. *)
Lemma os_path_join_absolute (a b : string) :
  Py.startswith_sep b = true -> Py.os_path_join a b = b.
Proof.
  unfold Py.os_path_join. intros ->. reflexivity.
Qed.

Lemma last_char_append (a b : string) :
  b <> "" -> Py.last_char (a ++ b)%string = Py.last_char b.
Proof.
  intros Hb. induction a as [|c a IH]; simpl.
  - reflexivity.
  - rewrite IH. destruct (a ++ b)%string eqn:E.
    + destruct a; simpl in E; [congruence | discriminate].
    + reflexivity.
Qed.

(** A relative component decides the last character of the joined path. *)
Lemma last_char_join (a b : string) :
  b <> "" -> Py.last_char (Py.os_path_join a b) = Py.last_char b.
Proof.
  intros Hb. unfold Py.os_path_join.
  destruct (Py.startswith_sep b); [reflexivity|].
  destruct (Py.str_falsy a || Py.endswith_sep a).
  - now apply last_char_append.
  - rewrite last_char_append.
    + now apply (last_char_append "/").
    + destruct b; discriminate.
Qed.

(** No training path is an evaluation path. *)
Lemma train_path_is_no_eval_path (p q : string) :
  Py.os_path_join p "train" <> Py.os_path_join q "eval".
Proof.
  intros E. apply (f_equal Py.last_char) in E.
  rewrite !last_char_join in E by discriminate. discriminate.
Qed.

(** ** Histories *)

Lemma state_writes_app (h1 h2 : history) :
  state_writes (h1 ++ h2) = state_writes h1 ++ state_writes h2.
Proof.
  induction h1 as [|ev h1 IH]; simpl; [reflexivity|].
  destruct ev; simpl; rewrite ?IH; reflexivity.
Qed.

Lemma state_writes_none (h : history) :
  Forall (fun ev => is_set_state ev = false) h -> state_writes h = [].
Proof.
  induction 1 as [|ev h Hev _ IH]; simpl; [reflexivity|].
  destruct ev; simpl in *; try assumption. discriminate.
Qed.

Lemma pretrained_locations_Forall (P : string -> Prop) (r : role) (h : history) :
  Forall (fun ev => forall c loc, ev = EvFromPretrained r c loc -> P loc) h ->
  Forall P (pretrained_locations r h).
Proof.
  induction 1 as [|ev h Hev _ IH]; simpl; [constructor|].
  destruct ev as [| r' c loc | | | | | | | | | | | ]; try assumption.
  destruct r', r; try assumption; constructor; try assumption;
    now apply (Hev c loc).
Qed.

Lemma loaded_paths_Forall (P : string -> Prop) (h : history) :
  Forall (fun ev => forall p, ev = EvLoadDataset p -> P p) h ->
  Forall P (loaded_paths h).
Proof.
  induction 1 as [|ev h Hev _ IH]; simpl; [constructor|].
  destruct ev; try assumption. constructor; [now apply Hev | assumption].
Qed.

Lemma trainer_eval_datasets_Forall (P : option pyobj -> Prop) (h : history) :
  Forall (fun ev => forall kw, ev = EvTrainer kw -> P (tk_eval_dataset kw)) h ->
  Forall P (trainer_eval_datasets h).
Proof.
  induction 1 as [|ev h Hev _ IH]; simpl; [constructor|].
  destruct ev; try assumption. constructor; [now apply Hev | assumption].
Qed.

(** ** Rules for [emits_at] *)

Section EmitsRules.

Context {I : attrs -> Prop} {ok : event -> Prop}.

Lemma emits_ret {A : Type} (a : A) s h :
  I s -> emits_at I ok (ret a) s h.
Proof.
  intros HI. exists []. simpl. rewrite app_nil_r. auto.
Qed.

Lemma emits_raise {A : Type} (e : exn) s h :
  I s -> emits_at I ok (@raise A e) s h.
Proof.
  intros HI. exists []. simpl. rewrite app_nil_r. auto.
Qed.

Lemma emits_setattr g s h :
  I (g s) -> emits_at I ok (setattr g) s h.
Proof.
  intros HI. exists []. simpl. rewrite app_nil_r. auto.
Qed.

Lemma emits_call {A : Type} ev (f : history -> result A) s h :
  ok ev -> I s -> emits_at I ok (call ev f) s h.
Proof.
  intros Hev HI. exists [ev]. simpl. auto.
Qed.

Lemma emits_log l msg s h :
  ok (EvLog l msg) -> I s -> emits_at I ok (log l msg) s h.
Proof.
  intros Hev HI. exists [EvLog l msg]. simpl. auto.
Qed.

(** Sequencing: the continuation runs from wherever the first part returned. *)
Lemma emits_bind {A B : Type} (m : M A) (k : A -> M B) s h :
  emits_at I ok m s h ->
  (forall a s' h', m s h = (Returned a, s', h') -> I s' ->
     emits_at I ok (k a) s' h') ->
  emits_at I ok (bind m k) s h.
Proof.
  intros (evs & Hh & Hok & HI) Hk. unfold emits_at, bind.
  destruct (m s h) as [[[a|e] s'] h'] eqn:E; simpl in *.
  - destruct (Hk a s' h' eq_refl HI) as (evs' & Hh' & Hok' & HI').
    exists (evs ++ evs'). split; [|split].
    + rewrite Hh', Hh. symmetry. apply app_assoc.
    + apply Forall_app. auto.
    + assumption.
  - exists evs. auto.
Qed.

(** [try]/[except Exception]: the handler runs from wherever the body raised. *)
Lemma emits_try {A : Type} (body : M A) (handler : exn -> M A) s h :
  emits_at I ok body s h ->
  (forall e s' h', body s h = (Raised e, s', h') -> I s' ->
     emits_at I ok (handler e) s' h') ->
  emits_at I ok (try_except_Exception body handler) s h.
Proof.
  intros (evs & Hh & Hok & HI) Hk. unfold emits_at, try_except_Exception.
  destruct (body s h) as [[[a|e] s'] h'] eqn:E; simpl in *.
  - exists evs. auto.
  - destruct (exn_is_Exception e).
    + destruct (Hk e s' h' eq_refl HI) as (evs' & Hh' & Hok' & HI').
      exists (evs ++ evs'). split; [|split].
      * rewrite Hh', Hh. symmetry. apply app_assoc.
      * apply Forall_app. auto.
      * assumption.
    + exists evs. auto.
Qed.

(** The [except] clauses of the three helper methods: log, then re-raise. *)
Lemma emits_log_and_reraise (msg : string) (e : exn) s h :
  (forall l m, ok (EvLog l m)) -> I s ->
  emits_at I ok (bind (log ERROR msg) (fun _ => @raise unit e)) s h.
Proof.
  intros Hlog HI. apply emits_bind.
  - now apply emits_log.
  - intros _ s' h' _ HI'. now apply emits_raise.
Qed.

End EmitsRules.

(** ** The methods under a frame *)

Section Frame.

Variable w : world.
Variable I : attrs -> Prop.
Variable ok : event -> Prop.
Hypothesis F : frame w I ok.

(** Reads, writes and returns in front of a continuation compute away. *)
Lemma emits_bind_getattr {A B : Type} (f : attrs -> A) (k : A -> M B) s h :
  emits_at I ok (k (f s)) s h -> emits_at I ok (bind (getattr f) k) s h.
Proof. exact (fun H => H). Qed.

Lemma emits_bind_setattr {B : Type} g (k : unit -> M B) s h :
  emits_at I ok (k tt) (g s) h -> emits_at I ok (bind (setattr g) k) s h.
Proof. exact (fun H => H). Qed.

Lemma emits_bind_ret {A B : Type} (a : A) (k : A -> M B) s h :
  emits_at I ok (k a) s h -> emits_at I ok (bind (ret a) k) s h.
Proof. exact (fun H => H). Qed.

Lemma emits_bind_raise {A B : Type} (e : exn) (k : A -> M B) s h :
  I s -> emits_at I ok (bind (raise e) k) s h.
Proof. intros HI. now apply (emits_raise (A := B) e). Qed.

Lemma emits_bind_call {A B : Type} ev (f : history -> result A)
    (k : A -> M B) s h :
  ok ev -> I s ->
  (forall a, f h = Returned a -> emits_at I ok (k a) s (h ++ [ev])) ->
  emits_at I ok (bind (call ev f) k) s h.
Proof.
  intros Hev HI Hk. apply emits_bind; [now apply emits_call|].
  intros a s' h' E _. unfold call in E. inversion E; subst. now apply Hk.
Qed.

Lemma emits_bind_log {B : Type} l msg (k : unit -> M B) s h :
  I s ->
  emits_at I ok (k tt) s (h ++ [EvLog l msg]) ->
  emits_at I ok (bind (log l msg) k) s h.
Proof.
  intros HI Hk. apply emits_bind; [apply emits_log; [apply F | assumption]|].
  intros [] s' h' E _. unfold log in E. inversion E; subst. exact Hk.
Qed.

Lemma input_path_returns suffix s h loc s' h' :
  input_path w suffix s h = (Returned loc, s', h') ->
  exists base, loc = Py.os_path_join base suffix.
Proof.
  unfold input_path, bind, call, ret.
  destruct (input_get w h) as [base|e]; intros E; inversion E.
  now exists base.
Qed.

Lemma emits_input_path suffix s h :
  I s -> emits_at I ok (input_path w suffix) s h.
Proof.
  intros HI. unfold input_path.
  apply emits_bind_call; [apply F | assumption |].
  intros base _. now apply emits_ret.
Qed.

Lemma emits_load_pretrained r c (arg : M string) s h :
  I s ->
  (forall s' h', I s' -> emits_at I ok arg s' h') ->
  (forall loc s' h' s'' h'',
     arg s' h' = (Returned loc, s'', h'') -> ok (EvFromPretrained r c loc)) ->
  emits_at I ok (load_pretrained w r c arg) s h.
Proof.
  intros HI Harg Hloc. unfold load_pretrained.
  apply emits_bind_call; [apply F | assumption |].
  intros _ _. apply emits_bind; [now apply Harg|].
  intros loc s' h' E HI'. apply emits_call; [|assumption].
  eapply Hloc, E.
Qed.

(** The two forms of the [from_pretrained] call, for the name read at [s]. *)
Lemma emits_from_pretrained r n s s0 h :
  I s0 -> I s -> role_name r s0 = Some n ->
  emits_at I ok
    (if Py.lower n =? "local"
     then load_pretrained w r (Py.str_of_opt (role_class r s0))
            (input_path w "/model")
     else load_pretrained w r (Py.str_of_opt (role_class r s0))
            (ret (Py.str_of_opt (Some n)))) s h.
Proof.
  intros HI0 HI Hn.
  pose proof (fr_from_pretrained _ _ _ F s0 r n) as Hfp.
  destruct (Py.lower n =? "local").
  - apply emits_load_pretrained; [assumption | |].
    + intros. now apply emits_input_path.
    + intros loc s' h' s'' h'' E.
      destruct (input_path_returns _ _ _ _ _ _ E) as [base ->]. now apply Hfp.
  - apply emits_load_pretrained; [assumption | |].
    + intros. now apply emits_ret.
    + intros loc s' h' s'' h'' E. inversion E; subst. simpl.
      now apply (Hfp "").
Qed.

Lemma emits_load_models s h :
  I s -> emits_at I ok (load_models w) s h.
Proof.
  intros HI. unfold load_models. apply emits_try.
  2: { intros e s' h' _ HI'. apply emits_log_and_reraise; [apply F | assumption]. }
  apply emits_bind_getattr.
  destruct (model_name s) as [n|] eqn:En; simpl method_lower;
    [|now apply emits_bind_raise].
  apply emits_bind_ret, emits_bind_getattr, emits_bind.
  { now apply (emits_from_pretrained RModel n s s). }
  intros m s1 h1 _ HI1. apply emits_bind_setattr.
  assert (HI2 : I (set_model m s1)) by now apply F.
  apply emits_bind_getattr.
  destruct (tokenizer_name (set_model m s1)) as [n'|] eqn:En'; simpl method_lower;
    [|now apply emits_bind_raise].
  apply emits_bind_ret, emits_bind_getattr, emits_bind.
  { now apply (emits_from_pretrained RTokenizer n' (set_model m s1) (set_model m s1)). }
  intros t s2 h2 _ HI3. apply emits_setattr. now apply F.
Qed.

Lemma emits_load_dataset path s h :
  ok (EvLoadDataset path) -> I s -> emits_at I ok (load_dataset w path) s h.
Proof. intros. now apply emits_call. Qed.

Lemma emits_preprocess_data s h :
  I s -> emits_at I ok (preprocess_data w) s h.
Proof.
  intros HI. unfold preprocess_data. apply emits_try.
  2: { intros e s' h' _ HI'. apply emits_log_and_reraise; [apply F | assumption]. }
  apply emits_bind_call; [apply F | assumption |]. intros _ _.
  apply emits_bind; [now apply emits_input_path|].
  intros train_path s1 h1 Et HI1.
  destruct (input_path_returns _ _ _ _ _ _ Et) as [base ->].
  apply emits_bind; [now apply emits_input_path|].
  intros eval_path s2 h2 Ee HI2.
  destruct (input_path_returns _ _ _ _ _ _ Ee) as [base' ->].
  apply emits_bind; [apply emits_load_dataset; [apply F | assumption]|].
  intros d s3 h3 _ HI3. apply emits_bind_setattr.
  assert (HI4 : I (set_train_dataset d s3)) by now apply F.
  apply emits_bind_getattr.
  destruct (eval (set_train_dataset d s3)) eqn:Eev; [|now apply emits_ret].
  apply emits_bind.
  - apply emits_load_dataset; [|assumption].
    now apply (fr_load_eval _ _ _ F (set_train_dataset d s3)).
  - intros d' s4 h4 _ HI5. apply emits_setattr. now apply F.
Qed.

Lemma emits_push_if_truthy r target s h :
  I s -> Py.truthy_opt_str (hf_repo_id s) = true ->
  emits_at I ok (push_if_truthy w r target) s h.
Proof.
  intros HI Hrepo. unfold push_if_truthy.
  destruct target as [obj|]; [|now apply emits_ret].
  destruct (obj_truthy obj); [|now apply emits_ret].
  apply emits_bind_getattr. apply emits_call; [|assumption].
  now apply (fr_push_to_hub _ _ _ F).
Qed.

(** [push_to_hub] leaves the attributes alone. *)
Lemma push_if_truthy_attrs r target s h :
  attrs_of (push_if_truthy w r target s h) = s.
Proof.
  unfold push_if_truthy. destruct target as [obj|]; [|reflexivity].
  destruct (obj_truthy obj); reflexivity.
Qed.

Lemma emits_upload_to_hf_hub s h :
  I s -> Py.truthy_opt_str (hf_repo_id s) = true ->
  emits_at I ok (upload_to_hf_hub w) s h.
Proof.
  intros HI Hrepo. unfold upload_to_hf_hub. apply emits_try.
  2: { intros e s' h' _ HI'. apply emits_log_and_reraise; [apply F | assumption]. }
  apply emits_bind_getattr, emits_bind; [now apply emits_push_if_truthy|].
  intros [] s1 h1 E HI1.
  assert (Hs : s1 = s).
  { pose proof (push_if_truthy_attrs RModel (model s) s h) as Hs.
    rewrite E in Hs. exact Hs. }
  subst s1.
  apply emits_bind_getattr. now apply emits_push_if_truthy.
Qed.

Lemma emits_trainer_output_dir s h :
  I s -> emits_at I ok trainer_output_dir s h.
Proof.
  intros HI. unfold trainer_output_dir. apply emits_bind_getattr.
  destruct (output_dir s); [now apply emits_ret | now apply emits_raise].
Qed.

(** The [try] block of [fine_tune], once its assignments establish [I]. *)
Lemma emits_fine_tune_try a s h :
  I (assign_args w a s) -> emits_at I ok (fine_tune_try w a) s h.
Proof.
  intros HI. unfold fine_tune_try. apply emits_bind_setattr.
  apply emits_bind; [now apply emits_load_models|].
  intros _ s1 h1 _ HI1.
  apply emits_bind; [now apply emits_preprocess_data|].
  intros _ s2 h2 _ HI2.
  apply emits_bind; [now apply emits_trainer_output_dir|].
  intros dir s3 h3 _ HI3.
  apply emits_bind_call; [apply F | assumption |]. intros training_args _.
  apply emits_bind_getattr.
  apply emits_bind_call; [now apply F | assumption |]. intros _ _.
  apply emits_bind_call; [apply F | assumption |]. intros _ _.
  apply emits_bind_call; [apply F | assumption |]. intros _ _.
  apply emits_bind_getattr. apply emits_bind.
  { destruct (eval s3) eqn:Eev; [|now apply emits_ret].
    apply emits_bind_call; [now apply (fr_evaluate _ _ _ F s3) | assumption |].
    intros eval_result _. apply emits_log; [apply F | assumption]. }
  intros _ s4 h4 _ HI4. apply emits_bind_getattr.
  destruct (Py.truthy_opt_str (hf_repo_id s4)) eqn:Hrepo;
    [now apply emits_upload_to_hf_hub | now apply emits_ret].
Qed.

(** The whole of [fine_tune], when the state-store writes are [ok] too. *)
Lemma emits_fine_tune a s h :
  (forall id r, ok (EvSetState id r)) ->
  I (assign_args w a s) -> emits_at I ok (fine_tune w a) s h.
Proof.
  intros Hset HI. unfold fine_tune, fine_tune_except, set_state.
  apply emits_bind.
  - apply emits_try; [now apply emits_fine_tune_try|].
    intros e s' h' _ HI'. apply emits_bind_log; [assumption|].
    apply emits_bind_call; [apply Hset | assumption |].
    intros _ _. now apply emits_raise.
  - intros _ s' h' _ HI'. apply emits_call; [apply Hset | assumption].
Qed.

End Frame.

(** ** Frames used by the properties of [fine_tune] *)

(** The [try] block never writes to the state store. *)
Lemma frame_no_state_write (w : world) :
  frame w (fun _ => True) (fun ev => is_set_state ev = false).
Proof. constructor; intros; auto. Qed.

(** With [self.eval] false: no [evaluate()], no load of an evaluation path,
    and a [Trainer] built with [eval_dataset=None]. *)
Lemma frame_eval_false (w : world) :
  frame w (fun s => eval s = false)
    (fun ev =>
       is_evaluate ev = false /\
       (forall q, ev <> EvLoadDataset (Py.os_path_join q "eval")) /\
       (forall kw, ev = EvTrainer kw -> tk_eval_dataset kw = None)).
Proof.
  constructor; intros; simpl; try congruence;
    try (split; [reflexivity | split; intros; discriminate]).
  - split; [reflexivity | split; [|intros; discriminate]].
    intros q E. inversion E as [E']. now apply train_path_is_no_eval_path in E'.
  - split; [reflexivity | split; [intros; discriminate|]].
    intros kw E. inversion E; subst. unfold trainer_kwargs_of; simpl.
    match goal with H : eval _ = false |- _ => now rewrite H end.
Qed.

(** With [self.hf_repo_id] unset: no [push_to_hub]. *)
Lemma frame_no_repo (w : world) :
  frame w (fun s => hf_repo_id s = None)
    (fun ev => is_push_to_hub ev = false).
Proof.
  constructor; intros; auto.
  match goal with
  | H : hf_repo_id ?s = None, H' : Py.truthy_opt_str _ = true |- _ =>
      rewrite H in H'; discriminate H'
  end.
Qed.

(** With the name of call site [r] equal to ["local"] up to case: every
    location handed to [from_pretrained] there is ["/model"]. *)
Lemma frame_local (w : world) (r : role) :
  frame w
    (fun s => exists n, role_name r s = Some n /\ Py.lower n = "local")
    (fun ev => forall c loc, ev = EvFromPretrained r c loc -> loc = "/model").
Proof.
  constructor; intros; auto; try discriminate;
    try (destruct r; assumption).
  match goal with
  | H : exists n, _ |- _ => destruct H as (n0 & Hn0 & Hl)
  end.
  match goal with
  | E : _ = EvFromPretrained _ _ _ |- _ => inversion E; subst
  end.
  match goal with
  | H : role_name _ _ = Some _ |- _ => rewrite Hn0 in H; inversion H; subst
  end.
  rewrite Hl. reflexivity.
Qed.

(** ** [fine_tune] in terms of its [try] block *)

Lemma fine_tune_after_return w a s h :
  outcome_of (fine_tune_try w a s h) = Returned tt ->
  fine_tune w a s h =
    (state_set_state w (history_of (fine_tune_try w a s h)) (self_id w)
       success_record,
     attrs_of (fine_tune_try w a s h),
     history_of (fine_tune_try w a s h)
       ++ [EvSetState (self_id w) success_record]).
Proof.
  unfold fine_tune, bind, try_except_Exception, set_state, call.
  destruct (fine_tune_try w a s h) as [[[[]|e] s1] h1]; simpl; intros E;
    [reflexivity | discriminate E].
Qed.

Lemma fine_tune_after_raise w a s h e :
  outcome_of (fine_tune_try w a s h) = Raised e ->
  exn_is_Exception e = true ->
  let h1 := history_of (fine_tune_try w a s h) in
  let entry := EvLog ERROR ("Failed to fine tune model: " ++ exn_str e)%string in
  fine_tune w a s h =
    (match state_set_state w (h1 ++ [entry]) (self_id w) (failure_record e) with
     | Returned _ => Raised e
     | Raised e' => Raised e'
     end,
     attrs_of (fine_tune_try w a s h),
     h1 ++ [entry; EvSetState (self_id w) (failure_record e)]).
Proof.
  unfold fine_tune, fine_tune_except, bind, try_except_Exception, set_state,
    call, log, raise.
  destruct (fine_tune_try w a s h) as [[[[]|e0] s1] h1]; simpl; intros E;
    [discriminate E|].
  inversion E; subst. intros ->.
  rewrite <- app_assoc. simpl.
  destruct (state_set_state w _ _ _); reflexivity.
Qed.

Lemma fine_tune_uncaught w a s h e :
  outcome_of (fine_tune_try w a s h) = Raised e ->
  exn_is_Exception e = false ->
  fine_tune w a s h =
    (Raised e, attrs_of (fine_tune_try w a s h),
     history_of (fine_tune_try w a s h)).
Proof.
  unfold fine_tune, bind, try_except_Exception.
  destruct (fine_tune_try w a s h) as [[[[]|e0] s1] h1]; simpl; intros E;
    [discriminate E|].
  inversion E; subst. intros ->. reflexivity.
Qed.

(** The [try] block makes no call on the state store. *)
Lemma fine_tune_try_writes_nothing w a s :
  state_writes (history_of (fine_tune_try w a s [])) = [].
Proof.
  destruct (emits_fine_tune_try w _ _ (frame_no_state_write w) a s [] Logic.I)
    as (evs & Hh & Hok & _).
  rewrite Hh. simpl. now apply state_writes_none.
Qed.

(** Every event of a run satisfies what a frame allows, the writes to the
    state store included when the frame allows them. *)
Lemma run_fine_tune_Forall w I ok a s :
  frame w I ok -> (forall id r, ok (EvSetState id r)) ->
  I (assign_args w a s) ->
  Forall ok (history_of (run_fine_tune w a s)).
Proof.
  intros F Hset HI.
  destruct (emits_fine_tune w I ok F a s [] Hset HI) as (evs & Hh & Hok & _).
  unfold run_fine_tune. rewrite Hh. exact Hok.
Qed.

(** ** The outcome record *)

Arguments history_of : simpl never.
Arguments outcome_of : simpl never.
Arguments attrs_of : simpl never.

(** C1, as the code has it.  When the [try] block of [fine_tune] raises an
    exception [e] whose class derives from [Exception], the run calls
    [set_state] exactly once, with [{success: false, exception: str(e)}]; the
    string is [str(e)] whatever it is, the empty string included.  If that
    call returns, [e] itself propagates to the caller; if the call raises, its
    exception propagates instead. *)
Theorem fine_tune_failure_is_recorded (w : world) (a : fine_tune_args)
    (s : attrs) (e : exn) :
  outcome_of (fine_tune_try w a s []) = Raised e ->
  exn_is_Exception e = true ->
  let run := run_fine_tune w a s in
  let store_answer :=
    state_set_state w
      (history_of (fine_tune_try w a s [])
         ++ [EvLog ERROR ("Failed to fine tune model: " ++ exn_str e)%string])
      (self_id w) (failure_record e) in
  state_writes (history_of run)
    = [{| success := false; exception := Some (exn_str e) |}] /\
  (store_answer = Returned tt -> outcome_of run = Raised e) /\
  (forall e', store_answer = Raised e' -> outcome_of run = Raised e').
Proof.
  intros Hraise Hexc run store_answer. subst run store_answer.
  unfold run_fine_tune.
  rewrite (fine_tune_after_raise w a s [] e Hraise Hexc). simpl.
  split; [|split].
  - unfold history_of at 1. simpl.
    rewrite state_writes_app, fine_tune_try_writes_nothing. reflexivity.
  - intros ->. reflexivity.
  - intros e' ->. reflexivity.
Qed.

(** The loader of the base class raises [NotImplementedError]: the run writes
    one failure record carrying its message, and the error reaches the
    caller. *)
Lemma fine_tune_failure_is_recorded_witness :
  let w := with_loader abstract_load_dataset (quiet_world "/data/in") in
  let e := PyExc true "NotImplementedError" "Subclasses should implement this!" in
  state_writes (history_of (run_fine_tune w default_args init_attrs))
    = [{| success := false;
          exception := Some "Subclasses should implement this!" |}] /\
  outcome_of (run_fine_tune w default_args init_attrs) = Raised e.
Proof.
  intros w e.
  destruct (fine_tune_failure_is_recorded w default_args init_attrs e
              eq_refl eq_refl) as (Hwrites & Hreturns & _).
  split; [exact Hwrites | exact (Hreturns eq_refl)].
Defined.

(** C1 as stated fails: a loader that fails on a bare [assert] raises inside
    the run, and the record written carries the empty string. *)
Lemma fine_tune_failure_record_may_have_empty_message :
  let w := with_loader asserting_load_dataset (quiet_world "/data/in") in
  (exists e, outcome_of (fine_tune_try w default_args init_attrs []) = Raised e) /\
  state_writes (history_of (run_fine_tune w default_args init_attrs))
    = [{| success := false; exception := Some "" |}] /\
  ~ (exists msg : string,
       msg <> "" /\
       state_writes (history_of (run_fine_tune w default_args init_attrs))
         = [{| success := false; exception := Some msg |}]).
Proof.
  intros w. split; [|split].
  - eexists. reflexivity.
  - reflexivity.
  - intros (msg & Hmsg & E). apply Hmsg.
    change (state_writes (history_of (run_fine_tune w default_args init_attrs)))
      with [{| success := false; exception := Some "" |}] in E.
    congruence.
Qed.

(** X13.  An exception outside the [Exception] hierarchy (a
    [KeyboardInterrupt] during training, say) passes the handler: nothing is
    written. *)
Lemma fine_tune_uncaught_writes_nothing (w : world) (a : fine_tune_args)
    (s : attrs) (e : exn) :
  outcome_of (fine_tune_try w a s []) = Raised e ->
  exn_is_Exception e = false ->
  state_writes (history_of (run_fine_tune w a s)) = [] /\
  outcome_of (run_fine_tune w a s) = Raised e.
Proof.
  intros Hraise Hexc. unfold run_fine_tune.
  rewrite (fine_tune_uncaught w a s [] e Hraise Hexc).
  split; [apply fine_tune_try_writes_nothing | reflexivity].
Qed.

(** C6.  A run of [fine_tune] that returns has called [set_state] exactly
    once, with [{success: true}]. *)
Theorem fine_tune_success_is_recorded (w : world) (a : fine_tune_args)
    (s : attrs) :
  outcome_of (run_fine_tune w a s) = Returned tt ->
  state_writes (history_of (run_fine_tune w a s))
    = [{| success := true; exception := None |}].
Proof.
  unfold run_fine_tune. intros Hret.
  destruct (outcome_of (fine_tune_try w a s [])) as [[]|e] eqn:Htry.
  - rewrite (fine_tune_after_return w a s [] Htry).
    unfold history_of at 1. simpl.
    rewrite state_writes_app, fine_tune_try_writes_nothing. reflexivity.
  - exfalso. destruct (exn_is_Exception e) eqn:Hexc.
    + rewrite (fine_tune_after_raise w a s [] e Htry Hexc) in Hret.
      unfold outcome_of in Hret. simpl in Hret.
      destruct (state_set_state w _ _ _); discriminate Hret.
    + rewrite (fine_tune_uncaught w a s [] e Htry Hexc) in Hret.
      discriminate Hret.
Qed.

(** A run with evaluation and publishing in which every collaborator
    returns. *)
Lemma fine_tune_success_is_recorded_witness :
  outcome_of (run_fine_tune (quiet_world "/data/in") publishing_args init_attrs)
    = Returned tt /\
  state_writes
    (history_of (run_fine_tune (quiet_world "/data/in") publishing_args init_attrs))
    = [{| success := true; exception := None |}].
Proof.
  split; [reflexivity|].
  apply (fine_tune_success_is_recorded (quiet_world "/data/in")
           publishing_args init_attrs).
  reflexivity.
Defined.

(** C9.  The success write stands after the [try] statement.  When the [try]
    block has returned and [set_state] raises on [{success: true}], that
    exception reaches the caller and the only write of the run is the
    success record: no failure record is written.  In any run, a failure
    record in the store means that the [try] block raised. *)
Theorem success_write_is_outside_the_handler (w : world) (a : fine_tune_args)
    (s : attrs) (e : exn) :
  outcome_of (fine_tune_try w a s []) = Returned tt ->
  state_set_state w (history_of (fine_tune_try w a s [])) (self_id w)
    success_record = Raised e ->
  outcome_of (run_fine_tune w a s) = Raised e /\
  state_writes (history_of (run_fine_tune w a s)) = [success_record] /\
  (forall w' a' s' r,
     In r (state_writes (history_of (run_fine_tune w' a' s'))) ->
     success r = false ->
     exists e', outcome_of (fine_tune_try w' a' s' []) = Raised e' /\
                exn_is_Exception e' = true /\ r = failure_record e').
Proof.
  intros Htry Hstore. unfold run_fine_tune.
  rewrite (fine_tune_after_return w a s [] Htry).
  split; [exact Hstore | split].
  - unfold history_of at 1. simpl.
    rewrite state_writes_app, fine_tune_try_writes_nothing. reflexivity.
  - clear. intros w a s r Hin Hr. unfold run_fine_tune in Hin.
    destruct (outcome_of (fine_tune_try w a s [])) as [[]|e] eqn:Htry.
    + rewrite (fine_tune_after_return w a s [] Htry) in Hin.
      unfold history_of at 1 in Hin. simpl in Hin.
      rewrite state_writes_app, fine_tune_try_writes_nothing in Hin.
      simpl in Hin. destruct Hin as [<-|[]]. discriminate Hr.
    + destruct (exn_is_Exception e) eqn:Hexc.
      * rewrite (fine_tune_after_raise w a s [] e Htry Hexc) in Hin.
        unfold history_of at 1 in Hin. simpl in Hin.
        rewrite state_writes_app, fine_tune_try_writes_nothing in Hin.
        simpl in Hin. destruct Hin as [<-|[]]. now exists e.
      * rewrite (fine_tune_uncaught w a s [] e Htry Hexc) in Hin.
        unfold history_of at 1 in Hin. simpl in Hin.
        rewrite fine_tune_try_writes_nothing in Hin. destruct Hin.
Qed.

(** A state store that cannot be reached: the run ends in its
    [ConnectionError], after the one attempted success write. *)
Lemma success_write_is_outside_the_handler_witness :
  let w := with_state_store unreachable_store (quiet_world "/data/in") in
  let e := PyExc true "ConnectionError" "state store unreachable" in
  outcome_of (run_fine_tune w default_args init_attrs) = Raised e /\
  state_writes (history_of (run_fine_tune w default_args init_attrs))
    = [success_record].
Proof.
  intros w e.
  destruct (success_write_is_outside_the_handler w default_args init_attrs e
              eq_refl eq_refl) as (Hout & Hwrites & _).
  split; [exact Hout | exact Hwrites].
Defined.

(** ** Evaluation and publishing are optional *)

(** C4.  In a run with [eval=False] the dataset loader is never called on
    an evaluation path (a path [os.path.join(q, "eval")], whatever base [q]
    the input returned) and [trainer.evaluate()] is never called. *)
Theorem eval_false_never_evaluates (w : world) (a : fine_tune_args)
    (s : attrs) :
  arg_eval a = false ->
  (forall q, ~ In (Py.os_path_join q "eval")
               (loaded_paths (history_of (run_fine_tune w a s)))) /\
  ~ In EvEvaluate (history_of (run_fine_tune w a s)).
Proof.
  intros Heval.
  pose proof (run_fine_tune_Forall w _ _ a s (frame_eval_false w)) as H.
  assert (Hall : Forall
            (fun ev =>
               is_evaluate ev = false /\
               (forall q, ev <> EvLoadDataset (Py.os_path_join q "eval")) /\
               (forall kw, ev = EvTrainer kw -> tk_eval_dataset kw = None))
            (history_of (run_fine_tune w a s))).
  { apply H; [|exact Heval].
    intros id r. split; [reflexivity | split; intros; discriminate]. }
  clear H. split.
  - intros q Hin.
    assert (Hpaths : Forall (fun p => forall q, p <> Py.os_path_join q "eval")
                       (loaded_paths (history_of (run_fine_tune w a s)))).
    { apply loaded_paths_Forall. eapply Forall_impl; [|exact Hall].
      intros ev (_ & Hload & _) p -> q' E. apply (Hload q'). now rewrite E. }
    rewrite Forall_forall in Hpaths. exact (Hpaths _ Hin q eq_refl).
  - intros Hin. rewrite Forall_forall in Hall.
    destruct (Hall _ Hin) as (Hev & _). discriminate Hev.
Qed.

(** A run with [eval=False] on an instance that ran with [eval=True]
    before. *)
Lemma eval_false_never_evaluates_witness :
  arg_eval default_args = false /\
  (forall q, ~ In (Py.os_path_join q "eval")
               (loaded_paths
                  (history_of
                     (run_fine_tune (quiet_world "/data/in") default_args
                        attrs_after_eval_run)))) /\
  ~ In EvEvaluate
      (history_of
         (run_fine_tune (quiet_world "/data/in") default_args
            attrs_after_eval_run)).
Proof.
  split; [reflexivity|].
  apply (eval_false_never_evaluates (quiet_world "/data/in") default_args
           attrs_after_eval_run).
  reflexivity.
Defined.

(** With [eval=False] the loader is still called, once, on the training
    path. *)
Example eval_false_loads_train_only :
  loaded_paths
    (history_of
       (run_fine_tune (quiet_world "/data/in") default_args attrs_after_eval_run))
  = ["/data/in/train"].
Proof. reflexivity. Qed.

(** With [eval=True] both happen. *)
Example eval_true_loads_and_evaluates :
  let h := history_of
             (run_fine_tune (quiet_world "/data/in") publishing_args init_attrs) in
  loaded_paths h = ["/data/in/train"; "/data/in/eval"] /\ In EvEvaluate h.
Proof. split; [reflexivity | simpl; tauto]. Qed.

(** C5.  In a run with [hf_repo_id] unset ([None]) neither
    [model.push_to_hub] nor [tokenizer.push_to_hub] is called. *)
Theorem unset_repo_id_never_publishes (w : world) (a : fine_tune_args)
    (s : attrs) :
  arg_hf_repo_id a = None ->
  Forall (fun ev => is_push_to_hub ev = false)
    (history_of (run_fine_tune w a s)).
Proof.
  intros Hrepo.
  apply (run_fine_tune_Forall w _ _ a s (frame_no_repo w)).
  - reflexivity.
  - exact Hrepo.
Qed.

(** The default arguments leave [hf_repo_id] unset. *)
Lemma unset_repo_id_never_publishes_witness :
  arg_hf_repo_id default_args = None /\
  Forall (fun ev => is_push_to_hub ev = false)
    (history_of (run_fine_tune (quiet_world "/data/in") default_args init_attrs)).
Proof.
  split; [reflexivity|].
  apply (unset_repo_id_never_publishes (quiet_world "/data/in") default_args
           init_attrs).
  reflexivity.
Defined.

(** With a repository id, model and tokenizer are both pushed. *)
Example repo_id_publishes_both :
  filter is_push_to_hub
    (history_of (run_fine_tune (quiet_world "/data/in") publishing_args init_attrs))
  = [EvPushToHub RModel (PyObj 1 true)
       (HubKwargs (Some "org/model") (Some "fine-tuned") (Some "hf_token")
          true false);
     EvPushToHub RTokenizer (PyObj 2 true)
       (HubKwargs (Some "org/model") (Some "fine-tuned") (Some "hf_token")
          true false)].
Proof. reflexivity. Qed.

(** ** The location of a local model *)

(** C2, evaluated on the code.  With [input.get()] returning ["/data/in"]
    and both names local, model and tokenizer are each loaded from
    ["/model"], and never from ["/data/in/model"], the [model] subpath of the
    input storage path. *)
Theorem local_model_is_not_loaded_under_input_path :
  let h := history_of
             (run_fine_tune (quiet_world "/data/in") local_args init_attrs) in
  Py.os_path_join "/data/in" "model" = "/data/in/model" /\
  pretrained_locations RModel h = ["/model"] /\
  pretrained_locations RTokenizer h = ["/model"] /\
  ~ In "/data/in/model" (pretrained_locations RModel h) /\
  ~ In "/data/in/model" (pretrained_locations RTokenizer h).
Proof.
  intros h. subst h.
  repeat split; try reflexivity; intros [E|[]]; discriminate E.
Qed.

(** A name that is not ["local"] is handed to the registry as it is. *)
Example remote_model_is_loaded_by_name :
  pretrained_locations RModel
    (history_of (run_fine_tune (quiet_world "/data/in") default_args init_attrs))
  = ["bert-base-uncased"].
Proof. reflexivity. Qed.

(** ** [compute_metrics] *)

(** C3.  On the scores [[0.9,0.1],[0.2,0.8],[0.3,0.7]] and the labels
    [0,1,0], the per-row argmax is [0,1,1] and the accuracy returned is
    2/3. *)
Theorem compute_metrics_example :
  argmax_predictions example_predictions = Returned [0; 1; 1]%Z /\
  exists m,
    compute_metrics (example_predictions, example_labels) = Returned m /\
    accuracy m = Num (2 # 3).
Proof.
  split.
  - reflexivity.
  - eexists. split; reflexivity.
Qed.

(** The other three entries of that dict. *)
Example example_metrics_dict :
  compute_metrics (example_predictions, example_labels)
  = Returned {| accuracy := Num (2 # 3); precision := Num (1 # 2);
                recall := Num 1; f1 := Num (2 # 3) |}.
Proof. reflexivity. Qed.

(** A NaN score wins the argmax of its row, the first one if both are. *)
Example argmax_row_nan :
  Numpy.argmax_row [1; nan]%float = Returned 1%nat /\
  Numpy.argmax_row [nan; nan]%float = Returned 0%nat /\
  Numpy.argmax_row [1; 1]%float = Returned 0%nat.
Proof. repeat split; reflexivity. Qed.

Lemma argmax_row_two (x y : float) :
  exists i, Numpy.argmax_row [x; y] = Returned i /\ (i < 2)%nat.
Proof.
  unfold Numpy.argmax_row, Numpy.argmax_scan.
  destruct (Numpy.is_nan x); [exists 0%nat; split; [reflexivity | lia]|].
  destruct (negb (PrimFloat.leb y x)).
  - destruct (Numpy.is_nan y); exists 1%nat; split; try reflexivity; lia.
  - exists 0%nat; split; [reflexivity | lia].
Qed.

Lemma argmax_rows_two_columns (m : list (list float)) :
  Forall (fun row => length row = 2%nat) m ->
  exists idx, Numpy.argmax_rows m = Returned idx /\
              length idx = length m /\
              Forall (fun i => (i < 2)%nat) idx.
Proof.
  induction 1 as [|row m Hrow _ (idx & E & Hlen & Hidx)]; simpl.
  - exists []. auto.
  - destruct row as [|x [|y [|]]]; try discriminate Hrow.
    destruct (argmax_row_two x y) as (i & Ei & Hi). rewrite Ei, E.
    exists (i :: idx). simpl. auto.
Qed.

Lemma argmax_predictions_two_columns (m : Numpy.ndarray) :
  Numpy.columns m = 2%nat -> Numpy.well_shaped m ->
  exists preds, argmax_predictions m = Returned preds /\
                length preds = length (Numpy.rows m) /\
                Forall binary preds.
Proof.
  intros Hcols Hshape. unfold Numpy.well_shaped in Hshape.
  rewrite Hcols in Hshape.
  destruct (argmax_rows_two_columns _ Hshape) as (idx & E & Hlen & Hidx).
  unfold argmax_predictions, Numpy.argmax_axis1. rewrite Hcols, E.
  exists (map Z.of_nat idx).
  split; [reflexivity | split; [now rewrite length_map|]].
  apply Forall_map. eapply Forall_impl; [|exact Hidx].
  intros i Hi. unfold binary. cbv beta in *. lia.
Qed.

Lemma present_labels_binary (y_true y_pred : list Z) :
  Forall binary y_true -> Forall binary y_pred ->
  incl (Sklearn.present_labels y_true y_pred) [0; 1]%Z.
Proof.
  intros Ht Hp z Hz. unfold Sklearn.present_labels in Hz.
  apply nodup_In, in_app_or in Hz. rewrite Forall_forall in Ht, Hp.
  destruct Hz as [Hz|Hz]; [apply Ht in Hz | apply Hp in Hz];
    destruct Hz as [-> | ->]; simpl; auto.
Qed.

Lemma check_targets_binary (y_true y_pred : list Z) :
  length y_true = length y_pred ->
  Forall binary y_true -> Forall binary y_pred ->
  Sklearn.check_targets y_true y_pred = Returned Sklearn.Binary.
Proof.
  intros Hlen Ht Hp. unfold Sklearn.check_targets.
  rewrite Hlen, Nat.eqb_refl. simpl.
  assert (Hle : (length (Sklearn.present_labels y_true y_pred) <= 2)%nat).
  { apply (NoDup_incl_length (l' := [0; 1]%Z)).
    - apply NoDup_nodup.
    - now apply present_labels_binary. }
  destruct (Nat.ltb_spec 2 (length (Sklearn.present_labels y_true y_pred)));
    [lia | reflexivity].
Qed.

Lemma pos_label_is_valid (y_true y_pred : list Z) :
  Forall binary y_true -> Forall binary y_pred ->
  let present := Sklearn.present_labels y_true y_pred in
  negb (existsb (Z.eqb 1) present) && (2 <=? length present)%nat = false.
Proof.
  intros Ht Hp present.
  destruct (existsb (Z.eqb 1) present) eqn:E; [reflexivity|]. cbn [negb andb].
  assert (Hle : (length present <= 1)%nat).
  { apply (NoDup_incl_length (l' := [0]%Z)).
    - apply NoDup_nodup.
    - intros z Hz. pose proof (present_labels_binary _ _ Ht Hp z Hz) as Hb.
      destruct Hb as [<-|[<-|[]]]; [now left|].
      exfalso. rewrite <- not_true_iff_false in E. apply E.
      apply existsb_exists. exists 1%Z. split; [exact Hz | reflexivity]. }
  destruct (Nat.leb_spec 2 (length present)); [lia | reflexivity].
Qed.

Section Confusion.

Local Arguments Z.of_nat : simpl never.
Local Arguments Z.add : simpl never.

Lemma combine_binary (y_true y_pred : list Z) :
  Forall binary y_true -> Forall binary y_pred ->
  Forall (fun tp => binary (fst tp) /\ binary (snd tp)) (combine y_true y_pred).
Proof.
  intros Ht Hp. rewrite Forall_forall in *. intros [t p] Hin. simpl. split.
  - apply Ht. eapply in_combine_l, Hin.
  - apply Hp. eapply in_combine_r, Hin.
Qed.

(** The four cells partition the positions of two binary arrays. *)
Lemma confusion_cells (labels predictions : list Z) :
  length labels = length predictions ->
  Forall binary labels -> Forall binary predictions ->
  let tp := Standard.tp labels predictions in
  let fp := Standard.fp labels predictions in
  let fn := Standard.fn labels predictions in
  let tn := Standard.tn labels predictions in
  (Z.of_nat (length labels) = tp + tn + fp + fn /\
   Z.of_nat (Sklearn.count_pairs Z.eqb labels predictions) = tp + tn /\
   Z.of_nat (Sklearn.count_pairs (fun _ p => Z.eqb p 1) labels predictions)
     = tp + fp /\
   Z.of_nat (Sklearn.count_pairs (fun t _ => Z.eqb t 1) labels predictions)
     = tp + fn)%Z.
Proof.
  intros Hlen Ht Hp.
  pose proof (combine_binary _ _ Ht Hp) as Hb.
  assert (Hl : length labels = length (combine labels predictions)).
  { rewrite length_combine, <- Hlen. now rewrite Nat.min_id. }
  cbv zeta. rewrite Hl.
  unfold Standard.tp, Standard.fp, Standard.fn, Standard.tn,
    Standard.confusion, Sklearn.count_pairs.
  clear Hl Hlen Ht Hp.
  induction Hb as [|[t p] l Htp _ IH]; [simpl; lia|].
  simpl in Htp. destruct Htp as [[-> | ->] [-> | ->]]; simpl in *; lia.
Qed.

End Confusion.

Section Ratios.

Local Open Scope Q_scope.

Lemma inject_Z_of_nat_pos (n : nat) :
  (0 < n)%nat -> Z.pos (Pos.of_nat n) = Z.of_nat n.
Proof.
  destruct n as [|n]; [lia|]. intros _.
  rewrite <- Pos.of_nat_succ. reflexivity.
Qed.

Lemma Qinv_zero_denominator (x : Q) : x / inject_Z 0 == 0.
Proof. unfold Qdiv. simpl. apply Qmult_0_r. Qed.

(** A ratio of counts as a quotient of integers. *)
Lemma prf_divide_ratio (k n : nat) :
  Sklearn.prf_divide k n == Standard.ratio (Z.of_nat k) (Z.of_nat n).
Proof.
  unfold Sklearn.prf_divide, Standard.ratio. destruct n as [|n].
  - symmetry. apply Qinv_zero_denominator.
  - rewrite Qred_correct, Qmake_Qdiv, inject_Z_of_nat_pos by lia. reflexivity.
Qed.

Lemma ratio_unit (n d : Z) :
  (0 <= n <= d)%Z -> 0 <= Standard.ratio n d /\ Standard.ratio n d <= 1.
Proof.
  intros [Hn Hd]. unfold Standard.ratio.
  destruct (Z.eq_dec d 0) as [-> | Hd0].
  - rewrite Qinv_zero_denominator. split; [apply Qle_refl | discriminate].
  - assert (Hpos : 0 < inject_Z d).
    { change 0 with (inject_Z 0). rewrite <- Zlt_Qlt. lia. }
    split.
    + apply Qle_shift_div_l; [exact Hpos|]. rewrite Qmult_0_l.
      change 0 with (inject_Z 0). rewrite <- Zle_Qle. exact Hn.
    + apply Qle_shift_div_r; [exact Hpos|]. rewrite Qmult_1_l.
      rewrite <- Zle_Qle. exact Hd.
Qed.

Lemma harmonic_mean (t a b : Q) :
  0 < t -> 0 < a -> 0 < b ->
  2 * (t / a) * (t / b) / (t / a + t / b) == 2 * t / (a + b).
Proof.
  intros Ht Ha Hb. field. repeat split; try lra.
  nra.
Qed.

End Ratios.

Section Scores.

Local Open Scope Q_scope.

Lemma ratio_zero_numerator (d : Z) : Standard.ratio 0 d == 0.
Proof. unfold Standard.ratio, Qdiv. apply Qmult_0_l. Qed.

Lemma ratio_positive (n d : Z) :
  (0 < n)%Z -> (0 < d)%Z -> 0 < Standard.ratio n d.
Proof.
  intros Hn Hd. unfold Standard.ratio.
  apply Qlt_shift_div_l.
  - change 0 with (inject_Z 0). rewrite <- Zlt_Qlt. exact Hd.
  - rewrite Qmult_0_l. change 0 with (inject_Z 0). rewrite <- Zlt_Qlt. exact Hn.
Qed.

(** F1 from the two ratios is [2 tp / (pred_sum + true_sum)]. *)
Lemma f_score_ratio (tp_sum pred_sum true_sum : nat) :
  (tp_sum <= pred_sum)%nat -> (tp_sum <= true_sum)%nat ->
  Sklearn.f_score (Sklearn.prf_divide tp_sum pred_sum)
    (Sklearn.prf_divide tp_sum true_sum)
  == Standard.ratio (2 * Z.of_nat tp_sum)
       (Z.of_nat pred_sum + Z.of_nat true_sum).
Proof.
  intros Hp Ht.
  pose proof (prf_divide_ratio tp_sum pred_sum) as HP.
  pose proof (prf_divide_ratio tp_sum true_sum) as HR.
  set (P := Sklearn.prf_divide tp_sum pred_sum) in *.
  set (R := Sklearn.prf_divide tp_sum true_sum) in *.
  unfold Sklearn.f_score. cbv zeta.
  destruct (Nat.eq_dec tp_sum 0) as [-> | Hpos].
  - change (Z.of_nat 0) with 0%Z in *.
    rewrite ratio_zero_numerator in HP, HR.
    assert (E : Qeq_bool (P + R) 0 = true).
    { apply Qeq_eq_bool. rewrite HP, HR. reflexivity. }
    rewrite E. symmetry. apply ratio_zero_numerator.
  - assert (HP0 : 0 < P) by (rewrite HP; apply ratio_positive; lia).
    assert (HR0 : 0 < R) by (rewrite HR; apply ratio_positive; lia).
    destruct (Qeq_bool (P + R) 0) eqn:E.
    + apply Qeq_bool_eq in E. lra.
    + rewrite Qred_correct, HP, HR. unfold Standard.ratio.
      rewrite inject_Z_mult, inject_Z_plus.
      apply harmonic_mean; change 0 with (inject_Z 0); rewrite <- Zlt_Qlt; lia.
Qed.

Lemma average_ratio (k n : nat) :
  (0 < n)%nat ->
  metric_is (Sklearn.average k n) (Standard.ratio (Z.of_nat k) (Z.of_nat n)).
Proof.
  intros Hn. pose proof (prf_divide_ratio k n) as H.
  destruct n as [|n]; [lia|]. exact H.
Qed.

Lemma metric_is_unit (m : metric) (n d : Z) :
  metric_is m (Standard.ratio n d) -> (0 <= n <= d)%Z -> in_unit_interval m.
Proof.
  intros Hm Hnd. destruct m as [q|]; [|contradiction]. simpl in *.
  rewrite Hm. now apply ratio_unit.
Qed.

End Scores.

(** C7, as the code has it.  For every score matrix with two columns and at
    least one row, and every label vector of the same length whose entries
    are 0 or 1, [compute_metrics] returns a dict whose accuracy, precision,
    recall and F1 each lie in [0,1] and are the standard formulas over the
    confusion matrix of the labels against the per-row argmax:
    (tp+tn)/(tp+tn+fp+fn), tp/(tp+fp), tp/(tp+fn) and 2tp/(2tp+fp+fn), a
    ratio with a zero denominator being 0 (as [/] on [Q] has it, and as
    [zero_division] makes the library return). *)
Theorem compute_metrics_binary (predictions : Numpy.ndarray)
    (labels : list Z) :
  Numpy.columns predictions = 2%nat ->
  Numpy.well_shaped predictions ->
  Numpy.rows predictions <> [] ->
  length labels = length (Numpy.rows predictions) ->
  Forall binary labels ->
  exists preds m,
    argmax_predictions predictions = Returned preds /\
    compute_metrics (predictions, labels) = Returned m /\
    (in_unit_interval (accuracy m) /\ in_unit_interval (precision m) /\
     in_unit_interval (recall m) /\ in_unit_interval (f1 m)) /\
    (metric_is (accuracy m) (Standard.accuracy labels preds) /\
     metric_is (precision m) (Standard.precision labels preds) /\
     metric_is (recall m) (Standard.recall labels preds) /\
     metric_is (f1 m) (Standard.f1 labels preds)).
Proof.
  intros Hcols Hshape Hrows Hlen Hlabels.
  destruct (argmax_predictions_two_columns predictions Hcols Hshape)
    as (preds & Epreds & Hlen' & Hpreds).
  rewrite <- Hlen' in Hlen.
  assert (Hn : (0 < length labels)%nat).
  { rewrite Hlen, Hlen'.
    destruct (Numpy.rows predictions); [congruence | simpl; lia]. }
  destruct (confusion_cells labels preds Hlen Hlabels Hpreds)
    as (Hall & Hcorrect & Hpred & Htrue).
  set (tp_sum := Sklearn.count_pairs (fun t p => Z.eqb t 1 && Z.eqb p 1)
                   labels preds).
  assert (Htp : Standard.tp labels preds = Z.of_nat tp_sum) by reflexivity.
  assert (Hfp : (0 <= Standard.fp labels preds)%Z) by apply Nat2Z.is_nonneg.
  assert (Hfn : (0 <= Standard.fn labels preds)%Z) by apply Nat2Z.is_nonneg.
  assert (Htn : (0 <= Standard.tn labels preds)%Z) by apply Nat2Z.is_nonneg.
  assert (Acc : metric_is
                  (Sklearn.average (Sklearn.count_pairs Z.eqb labels preds)
                     (length labels))
                  (Standard.accuracy labels preds)).
  { unfold Standard.accuracy. rewrite <- Hall, <- Hcorrect.
    now apply average_ratio. }
  assert (Prec : (Sklearn.prf_divide tp_sum
                    (Sklearn.count_pairs (fun _ p => Z.eqb p 1) labels preds)
                  == Standard.precision labels preds)%Q).
  { unfold Standard.precision. rewrite <- Hpred, Htp. apply prf_divide_ratio. }
  assert (Rec : (Sklearn.prf_divide tp_sum
                   (Sklearn.count_pairs (fun t _ => Z.eqb t 1) labels preds)
                 == Standard.recall labels preds)%Q).
  { unfold Standard.recall. rewrite <- Htrue, Htp. apply prf_divide_ratio. }
  assert (F1 : (Sklearn.f_score
                  (Sklearn.prf_divide tp_sum
                     (Sklearn.count_pairs (fun _ p => Z.eqb p 1) labels preds))
                  (Sklearn.prf_divide tp_sum
                     (Sklearn.count_pairs (fun t _ => Z.eqb t 1) labels preds))
                == Standard.f1 labels preds)%Q).
  { rewrite f_score_ratio by lia. unfold Standard.f1.
    rewrite Hpred, Htrue, Htp.
    replace (Z.of_nat tp_sum + Standard.fp labels preds
             + (Z.of_nat tp_sum + Standard.fn labels preds))%Z
      with (2 * Z.of_nat tp_sum + Standard.fp labels preds
            + Standard.fn labels preds)%Z by lia.
    reflexivity. }
  exists preds. eexists. split; [exact Epreds|].
  split.
  { unfold compute_metrics. rewrite Epreds.
    unfold Sklearn.accuracy_score,
      Sklearn.precision_recall_fscore_support_binary.
    rewrite (check_targets_binary labels preds Hlen Hlabels Hpreds).
    rewrite (pos_label_is_valid labels preds Hlabels Hpreds).
    reflexivity. }
  cbn [accuracy precision recall f1]. fold tp_sum.
  split; [|split; [exact Acc | split; [exact Prec | split; [exact Rec | exact F1]]]].
  split; [|split; [|split]].
  - apply (metric_is_unit _ _ _ Acc). lia.
  - apply (metric_is_unit (Num _) _ _ Prec). lia.
  - apply (metric_is_unit (Num _) _ _ Rec). lia.
  - apply (metric_is_unit (Num _) _ _ F1). lia.
Qed.

(** The example input has two columns, three rows and labels in {0,1}. *)
Lemma compute_metrics_binary_witness :
  exists preds m,
    argmax_predictions example_predictions = Returned preds /\
    compute_metrics (example_predictions, example_labels) = Returned m /\
    (in_unit_interval (accuracy m) /\ in_unit_interval (precision m) /\
     in_unit_interval (recall m) /\ in_unit_interval (f1 m)) /\
    (metric_is (accuracy m) (Standard.accuracy example_labels preds) /\
     metric_is (precision m) (Standard.precision example_labels preds) /\
     metric_is (recall m) (Standard.recall example_labels preds) /\
     metric_is (f1 m) (Standard.f1 example_labels preds)).
Proof.
  apply (compute_metrics_binary example_predictions example_labels).
  - reflexivity.
  - repeat constructor.
  - discriminate.
  - reflexivity.
  - repeat (apply Forall_cons; [unfold binary; lia|]). apply Forall_nil.
Defined.

(** C7 as stated fails on two inputs of the stated shape.  On a matrix with
    no rows (and no labels) the accuracy is the mean of an empty array, NaN,
    which is no number of [0,1].  On two rows with the labels [0,2] three
    classes occur, and [precision_recall_fscore_support] raises [ValueError]
    for [average="binary"]: no dict is returned. *)
Lemma compute_metrics_outside_unit_interval :
  (Numpy.columns (fst no_rows_input) = 2%nat /\
   Numpy.well_shaped (fst no_rows_input) /\
   length (snd no_rows_input) = length (Numpy.rows (fst no_rows_input)) /\
   exists m, compute_metrics no_rows_input = Returned m /\
             accuracy m = NaN /\ ~ in_unit_interval (accuracy m)) /\
  (Numpy.columns (fst three_class_input) = 2%nat /\
   Numpy.well_shaped (fst three_class_input) /\
   length (snd three_class_input)
     = length (Numpy.rows (fst three_class_input)) /\
   exists e, compute_metrics three_class_input = Raised e /\
             exn_class e = "ValueError").
Proof.
  split.
  - split; [reflexivity | split; [constructor | split; [reflexivity|]]].
    eexists. split; [reflexivity | split; [reflexivity|]].
    simpl. tauto.
  - split; [reflexivity | split; [repeat constructor | split; [reflexivity|]]].
    eexists. split; reflexivity.
Qed.

(** Labels of one class only: the ratio with a zero denominator is 0. *)
Example compute_metrics_no_positive_label :
  compute_metrics one_class_input
  = Returned {| accuracy := Num (1 # 2); precision := Num 0;
                recall := Num 0; f1 := Num 0 |}.
Proof. reflexivity. Qed.

(** * The methods one by one, and the run as a whole *)

Section WpRules.

Context {A B : Type}.

Lemma wp_ret (a : A) s h Q : Q (Returned a) s [] -> wp (ret a) s h Q.
Proof. intros H. exists []. split; [symmetry; apply app_nil_r | exact H]. Qed.

Lemma wp_raise (e : exn) s h Q : Q (Raised e) s [] -> wp (@raise A e) s h Q.
Proof. intros H. exists []. split; [symmetry; apply app_nil_r | exact H]. Qed.

Lemma wp_setattr g s h Q : Q (Returned tt) (g s) [] -> wp (setattr g) s h Q.
Proof. intros H. exists []. split; [symmetry; apply app_nil_r | exact H]. Qed.

Lemma wp_call ev (f : history -> result A) s h Q :
  Q (f h) s [ev] -> wp (call ev f) s h Q.
Proof. intros H. exists [ev]. split; [reflexivity | exact H]. Qed.

Lemma wp_call_cases ev (f : history -> result A) s h Q :
  (forall a, f h = Returned a -> Q (Returned a) s [ev]) ->
  (forall e, f h = Raised e -> Q (Raised e) s [ev]) ->
  wp (call ev f) s h Q.
Proof.
  intros Hret Hraise. apply wp_call.
  destruct (f h) as [a|e]; [now apply Hret | now apply Hraise].
Qed.

Lemma wp_log l msg s h Q :
  Q (Returned tt) s [EvLog l msg] -> wp (log l msg) s h Q.
Proof. intros H. exists [EvLog l msg]. split; [reflexivity | exact H]. Qed.

Lemma wp_mono (m : M A) s h (Q Q' : result A -> attrs -> list event -> Prop) :
  wp m s h Q -> (forall r s' evs, Q r s' evs -> Q' r s' evs) -> wp m s h Q'.
Proof. intros (evs & Hh & HQ) HQQ. exists evs. auto. Qed.

Lemma wp_bind (m : M A) (k : A -> M B) s h Q :
  wp m s h
    (fun r s' evs =>
       match r with
       | Returned a =>
           wp (k a) s' (h ++ evs) (fun r' s'' evs' => Q r' s'' (evs ++ evs'))
       | Raised e => Q (Raised e) s' evs
       end) ->
  wp (bind m k) s h Q.
Proof.
  intros (evs & Hh & HQ). unfold wp, bind, outcome_of, attrs_of, history_of in *.
  destruct (m s h) as [[[a|e] s'] h']; simpl in *; subst h'.
  - destruct HQ as (evs' & Hh' & HQ'). exists (evs ++ evs').
    split; [rewrite Hh'; symmetry; apply app_assoc | exact HQ'].
  - exists evs. auto.
Qed.

Lemma wp_bind_getattr (f : attrs -> A) (k : A -> M B) s h Q :
  wp (k (f s)) s h Q -> wp (bind (getattr f) k) s h Q.
Proof. exact (fun H => H). Qed.

Lemma wp_bind_ret (a : A) (k : A -> M B) s h Q :
  wp (k a) s h Q -> wp (bind (ret a) k) s h Q.
Proof. exact (fun H => H). Qed.

Lemma wp_bind_raise (e : exn) (k : A -> M B) s h Q :
  Q (Raised e) s [] -> wp (bind (raise e) k) s h Q.
Proof. intros H. exists []. split; [symmetry; apply app_nil_r | exact H]. Qed.

Lemma wp_bind_call ev (f : history -> result A) (k : A -> M B) s h Q :
  (forall a, f h = Returned a ->
     wp (k a) s (h ++ [ev]) (fun r s' evs => Q r s' (ev :: evs))) ->
  (forall e, f h = Raised e -> Q (Raised e) s [ev]) ->
  wp (bind (call ev f) k) s h Q.
Proof.
  intros Hret Hraise. apply wp_bind, wp_call.
  destruct (f h) as [a|e]; [now apply Hret | now apply Hraise].
Qed.

End WpRules.

Lemma wp_bind_setattr {B : Type} g (k : unit -> M B) s h Q :
  wp (k tt) (g s) h Q -> wp (bind (setattr g) k) s h Q.
Proof. exact (fun H => H). Qed.

Lemma wp_bind_log {B : Type} l msg (k : unit -> M B) s h Q :
  wp (k tt) s (h ++ [EvLog l msg]) (fun r s' evs => Q r s' (EvLog l msg :: evs)) ->
  wp (bind (log l msg) k) s h Q.
Proof. intros H. apply wp_bind, wp_log. exact H. Qed.

Lemma wp_bind_assoc {A B C : Type} (m : M A) (k : A -> M B) (k' : B -> M C)
    s h Q :
  wp (bind m (fun a => bind (k a) k')) s h Q -> wp (bind (bind m k) k') s h Q.
Proof.
  unfold wp, bind. destruct (m s h) as [[[a|e] s'] h']; [|exact (fun H => H)].
  destruct (k a s' h') as [[[b|e] s''] h'']; exact (fun H => H).
Qed.

(** [try: body / except Exception as e: log.error(prefix + str(e)); raise]. *)
Lemma wp_try_log_reraise {A : Type} (body : M A) (prefix : string) s h Q :
  wp body s h
    (fun r s' evs =>
       match r with
       | Returned a => Q (Returned a) s' evs
       | Raised e =>
           if exn_is_Exception e
           then Q (Raised e) s' (evs ++ [EvLog ERROR (prefix ++ exn_str e)%string])
           else Q (Raised e) s' evs
       end) ->
  wp (try_except_Exception body
        (fun e => log ERROR (prefix ++ exn_str e)%string ;; raise e)) s h Q.
Proof.
  intros (evs & Hh & HQ).
  unfold wp, try_except_Exception, bind, log, raise, outcome_of, attrs_of,
    history_of in *.
  destruct (body s h) as [[[a|e] s'] h']; simpl in *; subst h'.
  - exists evs. auto.
  - destruct (exn_is_Exception e); simpl.
    + exists (evs ++ [EvLog ERROR (prefix ++ exn_str e)%string]).
      split; [symmetry; apply app_assoc | exact HQ].
    + exists evs. auto.
Qed.

Lemma wp_result {A : Type} (m : M A) s h (P : result A -> attrs -> Prop) :
  wp m s h (fun r s' _ => P r s') ->
  P (outcome_of (m s h)) (attrs_of (m s h)).
Proof. intros (evs & _ & H). exact H. Qed.

Ltac wp_step :=
  lazymatch goal with
  | |- wp (bind (bind _ _) _) _ _ _ => apply wp_bind_assoc
  | |- wp (bind (getattr _) _) _ _ _ => apply wp_bind_getattr
  | |- wp (bind (setattr _) _) _ _ _ => apply wp_bind_setattr
  | |- wp (bind (ret _) _) _ _ _ => apply wp_bind_ret
  | |- wp (bind (raise _) _) _ _ _ => apply wp_bind_raise
  | |- wp (bind (log _ _) _) _ _ _ => apply wp_bind_log
  | |- wp (bind (call _ _) _) _ _ _ =>
      apply wp_bind_call; [intros ? ? | intros ? ?]
  | |- wp (bind (if ?b then _ else _) _) _ _ _ => destruct b eqn:?
  | |- wp (bind (match ?o with Some _ => _ | None => _ end) _) _ _ _ =>
      destruct o eqn:?
  | |- wp (if ?b then _ else _) _ _ _ => destruct b eqn:?
  | |- wp (match ?o with Some _ => _ | None => _ end) _ _ _ =>
      destruct o eqn:?
  | |- wp (try_except_Exception _ _) _ _ _ => apply wp_try_log_reraise
  | |- wp (ret _) _ _ _ => apply wp_ret
  | |- wp (raise _) _ _ _ => apply wp_raise
  | |- wp (setattr _) _ _ _ => apply wp_setattr
  | |- wp (call _ _) _ _ _ => apply wp_call_cases; [intros ? ? | intros ? ?]
  | |- wp (log _ _) _ _ _ => apply wp_log
  end.

(** Run a method to its leaves; what is left is the postcondition at each. *)
Ltac wp_run := repeat wp_step; cbv beta iota.

Ltac by_exception :=
  cbn [exn_is_Exception exn_str];
  repeat match goal with
         | |- context [exn_is_Exception ?e] => destruct (exn_is_Exception e)
         end.

Lemma load_models_attrs w s h :
  wp (load_models w) s h
    (fun r s' evs =>
       match r with
       | Returned _ =>
           exists m t hm ht cm ct lm lt,
             from_pretrained w hm RModel cm lm = Returned m /\
             from_pretrained w ht RTokenizer ct lt = Returned t /\
             s' = set_tokenizer t (set_model m s)
       | Raised e => s' = s \/ exists m, s' = set_model m s
       end).
Proof.
  unfold load_models, load_pretrained, input_path, method_lower.
  wp_run; by_exception; eauto 12.
Qed.

(** X1.  [load_models] assigns [self.model], then [self.tokenizer], and
    nothing else.  When it returns both hold what the two [from_pretrained]
    calls returned.  When it raises, either nothing was assigned or only
    [self.model]: a failure on the tokenizer leaves the new model on the
    instance. *)
Theorem load_models_updates_attributes (w : world) (s : attrs) (h : history) :
  match outcome_of (load_models w s h) with
  | Returned _ =>
      exists m t hm ht cm ct lm lt,
        from_pretrained w hm RModel cm lm = Returned m /\
        from_pretrained w ht RTokenizer ct lt = Returned t /\
        attrs_of (load_models w s h) = set_tokenizer t (set_model m s)
  | Raised _ =>
      attrs_of (load_models w s h) = s \/
      exists m, attrs_of (load_models w s h) = set_model m s
  end.
Proof.
  exact (wp_result _ s h
           (fun r s' =>
              match r with
              | Returned _ =>
                  exists m t hm ht cm ct lm lt,
                    from_pretrained w hm RModel cm lm = Returned m /\
                    from_pretrained w ht RTokenizer ct lt = Returned t /\
                    s' = set_tokenizer t (set_model m s)
              | Raised _ => s' = s \/ exists m, s' = set_model m s
              end)
           (load_models_attrs w s h)).
Qed.

Ltac unfold_methods :=
  unfold load_models, preprocess_data, upload_to_hf_hub, load_pretrained,
    input_path, method_lower, load_dataset, push_if_truthy.

Ltac close_log_contract :=
  eexists; split; cycle 1;
  [first [reflexivity | symmetry; apply app_nil_r] | reflexivity].

Lemma load_models_logs w s h :
  wp (load_models w) s h (fun r _ evs => logs_and_reraises "Failed to load model: " r evs).
Proof.
  unfold_methods. wp_run; unfold logs_and_reraises.
  all: by_exception; close_log_contract.
Qed.

Lemma preprocess_data_logs w s h :
  wp (preprocess_data w) s h
    (fun r _ evs => logs_and_reraises "Failed to preprocess data: " r evs).
Proof.
  unfold_methods. wp_run; unfold logs_and_reraises.
  all: by_exception; close_log_contract.
Qed.

Lemma upload_to_hf_hub_logs w s h :
  wp (upload_to_hf_hub w) s h
    (fun r _ evs =>
       logs_and_reraises "Failed to upload model to huggingface hub: " r evs).
Proof.
  unfold_methods. wp_run; unfold logs_and_reraises.
  all: by_exception; close_log_contract.
Qed.

(** X2.  [load_models], [preprocess_data] and [upload_to_hf_hub] log
    nothing while their body runs.  When an [Exception] escapes the body they
    log one error line, the prefix of the method followed by [str(e)], as
    their last action, and the same exception propagates; any other
    exception propagates with no log line. *)
Theorem helpers_log_and_reraise (w : world) (s : attrs) (h : history) :
  wp (load_models w) s h
    (fun r _ evs => logs_and_reraises "Failed to load model: " r evs) /\
  wp (preprocess_data w) s h
    (fun r _ evs => logs_and_reraises "Failed to preprocess data: " r evs) /\
  wp (upload_to_hf_hub w) s h
    (fun r _ evs =>
       logs_and_reraises "Failed to upload model to huggingface hub: " r evs).
Proof.
  split; [apply load_models_logs|].
  split; [apply preprocess_data_logs | apply upload_to_hf_hub_logs].
Qed.

Lemma load_models_scope w s h :
  wp (load_models w) s h (fun _ _ evs => forallb is_load_models_event evs = true).
Proof. unfold_methods. wp_run; by_exception; reflexivity. Qed.

Lemma preprocess_data_scope w s h :
  wp (preprocess_data w) s h (fun _ _ evs => forallb is_preprocess_event evs = true).
Proof. unfold_methods. wp_run; by_exception; reflexivity. Qed.

Lemma upload_to_hf_hub_scope w s h :
  wp (upload_to_hf_hub w) s h
    (fun _ s' evs => s' = s /\ forallb is_upload_event evs = true).
Proof. unfold_methods. wp_run; by_exception; split; reflexivity. Qed.

(** X5.  Each helper reaches its own collaborators only: [load_models] the
    [transformers] registry, [from_pretrained] and [input.get()];
    [preprocess_data] the input and the dataset loader; [upload_to_hf_hub] the
    hub, and it leaves every attribute as it was.  None of them writes to the
    state store or touches the trainer. *)
Theorem helpers_stay_in_scope (w : world) (s : attrs) (h : history) :
  wp (load_models w) s h
    (fun _ _ evs => forallb is_load_models_event evs = true) /\
  wp (preprocess_data w) s h
    (fun _ _ evs => forallb is_preprocess_event evs = true) /\
  wp (upload_to_hf_hub w) s h
    (fun _ s' evs => s' = s /\ forallb is_upload_event evs = true).
Proof.
  split; [apply load_models_scope|].
  split; [apply preprocess_data_scope | apply upload_to_hf_hub_scope].
Qed.

(** X3.  On an instance whose [model_name] is still [None] (the value
    [__init__] gives it), [load_models] fails on [None.lower()] before any
    collaborator is reached: the [AttributeError] is logged and re-raised and
    no attribute changes. *)
Lemma load_models_without_names w s h :
  model_name s = None ->
  load_models w s h
  = (Raised (PyExc true "AttributeError"
               "'NoneType' object has no attribute 'lower'"),
     s,
     h ++ [EvLog ERROR
             "Failed to load model: 'NoneType' object has no attribute 'lower'"]).
Proof.
  intros Hn. unfold load_models, try_except_Exception, bind, getattr.
  rewrite Hn. reflexivity.
Qed.

Lemma load_models_without_names_witness :
  load_models (quiet_world "/data/in") init_attrs []
  = (Raised (PyExc true "AttributeError"
               "'NoneType' object has no attribute 'lower'"),
     init_attrs,
     [EvLog ERROR
        "Failed to load model: 'NoneType' object has no attribute 'lower'"]).
Proof.
  apply (load_models_without_names (quiet_world "/data/in") init_attrs []).
  reflexivity.
Defined.

(** X4.  With names other than [local] (in any case), [load_models] never
    asks the input for its folder, and [from_pretrained] is called with the
    names as given. *)
Lemma load_models_remote_names w s h n n' :
  model_name s = Some n -> tokenizer_name s = Some n' ->
  Py.lower n <> "local" -> Py.lower n' <> "local" ->
  wp (load_models w) s h
    (fun _ _ evs =>
       ~ In EvInputGet evs /\
       Forall (eq n) (pretrained_locations RModel evs) /\
       Forall (eq n') (pretrained_locations RTokenizer evs)).
Proof.
  intros Hn Hn' Hl Hl'. apply String.eqb_neq in Hl, Hl'.
  unfold_methods. wp_step. wp_step. rewrite Hn. wp_run.
  all: repeat match goal with
         | H : tokenizer_name (set_model _ _) = _ |- _ =>
             cbn in H; rewrite Hn' in H; inversion H; subst; clear H
         end.
  all: try congruence.
  all: by_exception; cbn [Py.str_of_opt].
  all: split; [intros Hin; cbn in Hin; intuition discriminate|].
  all: split; cbn; repeat constructor.
Qed.

Lemma load_models_remote_names_witness :
  wp (load_models (quiet_world "/data/in"))
    (assign_args (quiet_world "/data/in") default_args init_attrs) []
    (fun _ _ evs =>
       ~ In EvInputGet evs /\
       Forall (eq "bert-base-uncased") (pretrained_locations RModel evs) /\
       Forall (eq "bert-base-uncased") (pretrained_locations RTokenizer evs)).
Proof.
  apply (load_models_remote_names (quiet_world "/data/in")
           (assign_args (quiet_world "/data/in") default_args init_attrs) []
           "bert-base-uncased" "bert-base-uncased").
  - reflexivity.
  - reflexivity.
  - apply String.eqb_neq. reflexivity.
  - apply String.eqb_neq. reflexivity.
Defined.

(** What [preprocess_data] has done when it returns. *)
Lemma preprocess_data_on_return w s h :
  wp (preprocess_data w) s h
    (fun r s' evs =>
       match r with
       | Returned _ =>
           exists p1 p2 d,
             evs = [EvCopyFromRemote; EvInputGet; EvInputGet;
                    EvLoadDataset (Py.os_path_join p1 "train")]
                   ++ (if eval s
                       then [EvLoadDataset (Py.os_path_join p2 "eval")]
                       else []) /\
             if eval s
             then exists d', s' = set_eval_dataset d' (set_train_dataset d s)
             else s' = set_train_dataset d s
       | Raised _ => True
       end).
Proof.
  unfold_methods. wp_run.
  all: by_exception; trivial.
  all: match goal with
       | H : eval (set_train_dataset _ _) = _ |- _ => cbn in H; rewrite H
       end.
  all: eexists _, _, _; split; [reflexivity|]; eauto.
  Unshelve. all: exact EmptyString.
Qed.

(** X6.  When [preprocess_data] returns it has copied the input, asked
    [input.get()] twice (the evaluation path is computed whether or not
    [eval] is set), loaded [<base>/train] into [self.train_dataset] and, only
    if [eval] is set, [<base>/eval] into [self.eval_dataset], in this order
    and with nothing else. *)
Theorem preprocess_data_resolves_paths_then_loads (w : world) (s : attrs)
    (h : history) :
  wp (preprocess_data w) s h
    (fun r s' evs =>
       match r with
       | Returned _ =>
           exists p1 p2 d,
             input_get w (h ++ [EvCopyFromRemote]) = Returned p1 /\
             input_get w (h ++ [EvCopyFromRemote; EvInputGet]) = Returned p2 /\
             subclass_load_dataset w
               (h ++ [EvCopyFromRemote; EvInputGet; EvInputGet])
               (Py.os_path_join p1 "train") = Returned d /\
             if eval s
             then exists d',
                 subclass_load_dataset w
                   (h ++ [EvCopyFromRemote; EvInputGet; EvInputGet;
                          EvLoadDataset (Py.os_path_join p1 "train")])
                   (Py.os_path_join p2 "eval") = Returned d' /\
                 evs = [EvCopyFromRemote; EvInputGet; EvInputGet;
                        EvLoadDataset (Py.os_path_join p1 "train");
                        EvLoadDataset (Py.os_path_join p2 "eval")] /\
                 s' = set_eval_dataset d' (set_train_dataset d s)
             else
               evs = [EvCopyFromRemote; EvInputGet; EvInputGet;
                      EvLoadDataset (Py.os_path_join p1 "train")] /\
               s' = set_train_dataset d s
       | Raised _ => True
       end).
Proof.
  unfold_methods. wp_run.
  all: by_exception; trivial.
  all: match goal with
       | H : eval (set_train_dataset _ _) = _ |- _ => cbn in H; rewrite H
       end.
  all: repeat match goal with
              | H : _ (_ ++ _) = Returned _ |- _ =>
                  rewrite <- ?app_assoc in H; cbn [app] in H; revert H
              | H : _ (_ ++ _) _ = Returned _ |- _ =>
                  rewrite <- ?app_assoc in H; cbn [app] in H; revert H
              end; intros.
  all: eexists _, _, _; repeat (split; [eassumption|]); eauto.
Qed.

Example preprocess_data_example :
  history_of
    (preprocess_data (quiet_world "/data/in")
       (assign_args (quiet_world "/data/in") publishing_args init_attrs) [])
  = [EvCopyFromRemote; EvInputGet; EvInputGet;
     EvLoadDataset "/data/in/train"; EvLoadDataset "/data/in/eval"].
Proof. reflexivity. Qed.

(** X7.  With [eval] off [preprocess_data] leaves [self.eval_dataset] as it
    found it (a dataset of an earlier run stays on the instance), whatever
    the outcome; and when it raises, either nothing was assigned or only
    [self.train_dataset]. *)
Theorem preprocess_data_updates_attributes (w : world) (s : attrs)
    (h : history) :
  wp (preprocess_data w) s h
    (fun r s' _ =>
       (eval s = false -> eval_dataset s' = eval_dataset s) /\
       match r with
       | Returned _ => True
       | Raised _ => s' = s \/ exists d, s' = set_train_dataset d s
       end).
Proof.
  unfold_methods. wp_run.
  all: by_exception.
  all: try match goal with
       | H : eval (set_train_dataset _ _) = _ |- _ => cbn in H
       end.
  all: split; [intros; cbn; congruence || reflexivity | eauto].
Qed.

Lemma upload_to_hf_hub_on_return w s h :
  wp (upload_to_hf_hub w) s h
    (fun r s' evs =>
       s' = s /\
       match r with
       | Returned _ =>
           evs = pushes RModel (model s) (hub_kwargs_of s)
                 ++ pushes RTokenizer (tokenizer s) (hub_kwargs_of s)
       | Raised _ => True
       end).
Proof.
  unfold_methods. wp_run.
  all: by_exception; split; trivial.
  all: unfold pushes;
    repeat match goal with
           | H : model _ = _ |- _ => rewrite H; clear H
           | H : tokenizer _ = _ |- _ => rewrite H; clear H
           | H : obj_truthy _ = _ |- _ => rewrite H; clear H
           end; reflexivity.
Qed.

(** X8.  When [upload_to_hf_hub] returns it has pushed the model if
    [self.model] is truthy, then the tokenizer if [self.tokenizer] is truthy,
    each with the five hub attributes of the instance, and nothing else. *)
Theorem upload_pushes_truthy_handles (w : world) (s : attrs) (h : history) :
  wp (upload_to_hf_hub w) s h
    (fun r s' evs =>
       s' = s /\
       match r with
       | Returned _ =>
           evs = pushes RModel (model s) (hub_kwargs_of s)
                 ++ pushes RTokenizer (tokenizer s) (hub_kwargs_of s)
       | Raised _ => True
       end).
Proof. apply upload_to_hf_hub_on_return. Qed.

(** On a fresh instance there is nothing to push. *)
Example upload_on_fresh_instance (w : world) (h : history) :
  upload_to_hf_hub w init_attrs h = (Returned tt, init_attrs, h).
Proof. reflexivity. Qed.

(** A falsy tokenizer (an empty vocabulary has length 0) is not pushed. *)
Example upload_skips_falsy_tokenizer :
  history_of
    (upload_to_hf_hub (quiet_world "/data/in")
       (set_tokenizer (PyObj 2 false) attrs_after_publishing_run) [])
  = [EvPushToHub RModel (PyObj 1 true)
       (hub_kwargs_of attrs_after_publishing_run)].
Proof. reflexivity. Qed.

(** X9.  When the push of the model raises an [Exception], the tokenizer is
    not pushed: the error is logged and re-raised. *)
Lemma upload_stops_at_failed_model_push w s h obj e :
  model s = Some obj -> obj_truthy obj = true ->
  push_to_hub w h RModel obj (hub_kwargs_of s) = Raised e ->
  exn_is_Exception e = true ->
  upload_to_hf_hub w s h
  = (Raised e, s,
     h ++ [EvPushToHub RModel obj (hub_kwargs_of s);
           EvLog ERROR
             ("Failed to upload model to huggingface hub: " ++ exn_str e)%string]).
Proof.
  intros Hm Ht Hpush He.
  unfold upload_to_hf_hub, push_if_truthy, try_except_Exception, bind, getattr,
    call, log, raise.
  rewrite Hm, Ht, Hpush, He. rewrite <- app_assoc. reflexivity.
Qed.

Lemma upload_stops_at_failed_model_push_witness :
  let w := with_hub (fun _ => Raised unauthorized) (quiet_world "/data/in") in
  upload_to_hf_hub w attrs_after_publishing_run []
  = (Raised unauthorized, attrs_after_publishing_run,
     [EvPushToHub RModel (PyObj 1 true)
        (hub_kwargs_of attrs_after_publishing_run);
      EvLog ERROR
        "Failed to upload model to huggingface hub: 401 Unauthorized"]).
Proof.
  intros w.
  apply (upload_stops_at_failed_model_push w attrs_after_publishing_run []
           (PyObj 1 true) unauthorized); reflexivity.
Defined.

Lemma frame_config (w : world) (c : attrs) :
  frame w (fun s => config_only s = c) (fun _ => True).
Proof. constructor; intros; auto. Qed.

(** X10.  After any run the configuration attributes of the instance are
    the arguments of the call: the pipeline changes the two handles and the
    two datasets only. *)
Theorem fine_tune_keeps_configuration (w : world) (a : fine_tune_args)
    (s : attrs) :
  config_only (attrs_of (run_fine_tune w a s))
  = config_only (assign_args w a s).
Proof.
  destruct (emits_fine_tune w _ _ (frame_config w _) a s []
              (fun _ _ => Logic.I) eq_refl) as (_ & _ & _ & H).
  exact H.
Qed.

Lemma frame_falsy_repo (w : world) :
  frame w (fun s => Py.truthy_opt_str (hf_repo_id s) = false)
    (fun ev => is_push_to_hub ev = false).
Proof.
  constructor; intros; auto. congruence.
Qed.

(** X11.  An empty [hf_repo_id] is falsy: the run never reaches the hub. *)
Theorem empty_repo_id_never_publishes (w : world) (a : fine_tune_args)
    (s : attrs) :
  arg_hf_repo_id a = Some EmptyString ->
  Forall (fun ev => is_push_to_hub ev = false)
    (history_of (run_fine_tune w a s)).
Proof.
  intros Hrepo.
  apply (run_fine_tune_Forall w _ _ a s (frame_falsy_repo w)).
  - reflexivity.
  - cbn. now rewrite Hrepo.
Qed.

Lemma empty_repo_id_never_publishes_witness :
  arg_hf_repo_id empty_repo_args = Some EmptyString /\
  Forall (fun ev => is_push_to_hub ev = false)
    (history_of (run_fine_tune (quiet_world "/data/in") empty_repo_args init_attrs)).
Proof.
  split; [reflexivity|].
  apply (empty_repo_id_never_publishes (quiet_world "/data/in") empty_repo_args
           init_attrs).
  reflexivity.
Defined.

(** How the history of a run ends, by the outcome of the [try] block. *)
Lemma run_fine_tune_history w a s :
  history_of (run_fine_tune w a s)
  = history_of (fine_tune_try w a s [])
    ++ match outcome_of (fine_tune_try w a s []) with
       | Returned _ => [EvSetState (self_id w) success_record]
       | Raised e =>
           if exn_is_Exception e
           then [EvLog ERROR ("Failed to fine tune model: " ++ exn_str e)%string;
                 EvSetState (self_id w) (failure_record e)]
           else []
       end.
Proof.
  unfold run_fine_tune.
  destruct (outcome_of (fine_tune_try w a s [])) as [[]|e] eqn:Htry.
  - now rewrite (fine_tune_after_return w a s [] Htry).
  - destruct (exn_is_Exception e) eqn:Hexc.
    + now rewrite (fine_tune_after_raise w a s [] e Htry Hexc).
    + rewrite (fine_tune_uncaught w a s [] e Htry Hexc).
      symmetry. apply app_nil_r.
Qed.

(** X12.  The state store is written at most once in a run, and the write
    is the last thing the run does. *)
Theorem set_state_is_the_last_call (w : world) (a : fine_tune_args)
    (s : attrs) :
  let h := history_of (run_fine_tune w a s) in
  state_writes h = [] \/
  exists h0 r, h = h0 ++ [EvSetState (self_id w) r] /\ state_writes h0 = [].
Proof.
  intros h. subst h. rewrite run_fine_tune_history.
  pose proof (fine_tune_try_writes_nothing w a s) as Hnone.
  destruct (outcome_of (fine_tune_try w a s [])) as [[]|e].
  - right. exists (history_of (fine_tune_try w a s [])), success_record. auto.
  - destruct (exn_is_Exception e).
    + right.
      exists (history_of (fine_tune_try w a s [])
              ++ [EvLog ERROR ("Failed to fine tune model: " ++ exn_str e)%string]),
        (failure_record e).
      split.
      * rewrite <- app_assoc. reflexivity.
      * rewrite state_writes_app, Hnone. reflexivity.
    + left. rewrite app_nil_r. exact Hnone.
Qed.

Lemma interrupted_training_writes_nothing :
  let w := with_train (Raised keyboard_interrupt) (quiet_world "/data/in") in
  state_writes (history_of (run_fine_tune w default_args init_attrs)) = [] /\
  outcome_of (run_fine_tune w default_args init_attrs) = Raised keyboard_interrupt.
Proof.
  intros w.
  apply (fine_tune_uncaught_writes_nothing w default_args init_attrs
           keyboard_interrupt); reflexivity.
Defined.

Lemma follow_app p h1 h2 :
  follow p (h1 ++ h2)
  = match follow p h1 with Some q => follow q h2 | None => None end.
Proof.
  revert p. induction h1 as [|ev h1 IH]; intros p; simpl; [reflexivity|].
  destruct (step p ev); [apply IH | reflexivity].
Qed.

Ltac close_leads :=
  match goal with
  | |- exists q, leads _ _ q /\ _ =>
      eexists; split; [split; [reflexivity | discriminate] | cbn; lia]
  | |- leads _ _ _ => split; [reflexivity | discriminate]
  end.

Lemma load_models_phases w s h :
  wp (load_models w) s h
    (fun r _ evs =>
       match r with
       | Returned _ => leads Start evs AtTokenizer
       | Raised _ => exists q, leads Start evs q /\ rank q <= 2
       end).
Proof. unfold_methods. wp_run; by_exception; close_leads. Qed.

Lemma preprocess_data_phases w s h :
  wp (preprocess_data w) s h
    (fun r _ evs =>
       match r with
       | Returned _ => leads AtTokenizer evs AtTrainData \/ leads AtTokenizer evs AtEvalData
       | Raised _ => exists q, leads AtTokenizer evs q /\ rank q <= 5
       end).
Proof.
  unfold_methods. wp_run; by_exception;
    first [close_leads | left; close_leads | right; close_leads].
Qed.

Lemma upload_to_hf_hub_phases w s h :
  wp (upload_to_hf_hub w) s h
    (fun _ _ evs =>
       (exists q, leads AtSave evs q /\ 9 <= rank q) /\
       (exists q, leads AtEvaluate evs q /\ 9 <= rank q)).
Proof. unfold_methods; wp_run; by_exception; split; close_leads. Qed.

Lemma leads_app p q q' evs evs' :
  leads p evs q -> leads q evs' q' -> leads p (evs ++ evs') q'.
Proof.
  intros [H1 _] [H2 Hq]. split; [|exact Hq]. now rewrite follow_app, H1.
Qed.

Lemma leads_cons p p' q ev evs :
  step p ev = Some p' -> leads p' evs q -> leads p (ev :: evs) q.
Proof. intros Hs [H Hq]. split; [|exact Hq]. simpl. now rewrite Hs. Qed.

Lemma leads_nil p : p <> AtRecord -> leads p [] p.
Proof. intros Hp. split; [reflexivity | exact Hp]. Qed.

Lemma wp_and {A : Type} (m : M A) s h
    (Q1 Q2 : result A -> attrs -> list event -> Prop) :
  wp m s h Q1 -> wp m s h Q2 ->
  wp m s h (fun r s' evs => Q1 r s' evs /\ Q2 r s' evs).
Proof.
  intros (evs1 & H1 & HQ1) (evs2 & H2 & HQ2).
  assert (evs1 = evs2) as -> by (rewrite H1 in H2; now apply app_inv_head in H2).
  exists evs2. auto.
Qed.

(** Use the specification of a method in front of a continuation. *)
Lemma wp_bind_spec {A B : Type} (m : M A) (k : A -> M B) s h
    (P : result A -> attrs -> list event -> Prop) Q :
  wp m s h P ->
  (forall a s' evs, P (Returned a) s' evs ->
     wp (k a) s' (h ++ evs) (fun r' s'' evs' => Q r' s'' (evs ++ evs'))) ->
  (forall e s' evs, P (Raised e) s' evs -> Q (Raised e) s' evs) ->
  wp (bind m k) s h Q.
Proof.
  intros Hm Hret Hraise. apply wp_bind. eapply wp_mono; [exact Hm|].
  intros [a|e] s' evs HP; [now apply Hret | now apply Hraise].
Qed.

Ltac leads_tail :=
  repeat first
    [ eassumption
    | apply leads_nil; discriminate
    | eapply leads_cons; [reflexivity|]
    | eapply leads_app; [eassumption|] ].

Lemma fine_tune_try_phases w a s :
  wp (fine_tune_try w a) s []
    (fun r _ evs =>
       exists q, leads Start evs q /\
                 match r with
                 | Returned _ => 9 <= rank q
                 | Raised _ => True
                 end).
Proof.
  unfold fine_tune_try. wp_step.
  eapply wp_bind_spec; [apply load_models_phases | |].
  2: { intros e s1 evs1 (q & Hq & _). eauto. }
  intros ? s1 evs1 H1. cbv beta iota in H1.
  eapply wp_bind_spec; [apply preprocess_data_phases | |].
  2: { intros e s2 evs2 (q & Hq & _). exists q. split; [|exact Logic.I].
       eapply leads_app; eassumption. }
  intros ? s2 evs2 H2. cbv beta iota in H2. unfold trainer_output_dir.
  assert (H2' : exists p, leads AtTokenizer evs2 p /\
                          (p = AtTrainData \/ p = AtEvalData)).
  { destruct H2; eauto. }
  clear H2. destruct H2' as (p & H2 & Hp).
  wp_run.
  all: try (eapply wp_mono; [apply upload_to_hf_hub_phases|];
            cbv beta;
            intros r s' evs ((q & Hq & Hrank) & (q' & Hq' & Hrank'))).
  all: destruct Hp as [-> | ->].
  all: eexists; (split; [leads_tail|]).
  all: try exact Logic.I; try (cbn; lia).
  all: destruct r; [assumption | exact Logic.I].
Qed.

Lemma wp_history {A : Type} (m : M A) s Q :
  wp m s [] Q -> Q (outcome_of (m s [])) (attrs_of (m s [])) (history_of (m s [])).
Proof. intros (evs & Hh & HQ). now rewrite Hh. Qed.

Lemma step_record p id r : p <> AtRecord -> step p (EvSetState id r) = Some AtRecord.
Proof. destruct p; intros Hp; (reflexivity || now contradiction Hp). Qed.

Lemma step_log p l msg : p <> AtRecord -> step p (EvLog l msg) = Some p.
Proof. destruct p; intros Hp; (reflexivity || now contradiction Hp). Qed.

Lemma run_fine_tune_follows (w : world) (a : fine_tune_args) (s : attrs) :
  exists q,
    follow Start (history_of (run_fine_tune w a s)) = Some q /\
    match outcome_of (fine_tune_try w a s []) with
    | Returned _ => q = AtRecord
    | Raised e => if exn_is_Exception e then q = AtRecord else q <> AtRecord
    end.
Proof.
  rewrite run_fine_tune_history.
  destruct (wp_history _ _ _ (fine_tune_try_phases w a s)) as (q & [Hq Hrec] & _).
  destruct (outcome_of (fine_tune_try w a s [])) as [[]|e].
  - exists AtRecord. split; [|reflexivity].
    rewrite follow_app, Hq. simpl. now rewrite step_record.
  - destruct (exn_is_Exception e).
    + exists AtRecord. split; [|reflexivity].
      rewrite follow_app, Hq. simpl. rewrite step_log by assumption.
      now rewrite step_record.
    + exists q. split; [|assumption]. now rewrite app_nil_r.
Qed.

(** X14.  The collaborator calls of any run follow the pipeline: model,
    tokenizer, copy, train data, (eval data,) [TrainingArguments], [Trainer],
    [train], [save_model], (evaluate,) (push model,) (push tokenizer,) and
    then the state write.  The run ends with the outcome recorded unless an
    exception outside [Exception] cut it short. *)
Theorem fine_tune_follows_the_pipeline (w : world) (a : fine_tune_args)
    (s : attrs) :
  exists q,
    follow Start (history_of (run_fine_tune w a s)) = Some q /\
    match outcome_of (fine_tune_try w a s []) with
    | Returned _ => q = AtRecord
    | Raised e => if exn_is_Exception e then q = AtRecord else q <> AtRecord
    end.
Proof. apply run_fine_tune_follows. Qed.

(** The automaton refuses a history in which the hub is reached before the
    model is saved. *)
Example follow_refuses_early_push :
  follow Start
    [EvFromPretrained RModel "AutoModel" "m";
     EvFromPretrained RTokenizer "AutoTokenizer" "m";
     EvPushToHub RModel (PyObj 1 true) (hub_kwargs_of init_attrs)]
  = None.
Proof. reflexivity. Qed.

(** In a history that follows the pipeline from a phase before
    [save_model], a push comes after [save_model], which comes after
    [train]. *)
Lemma follow_push_after_save h : forall p q r obj kw,
  follow p h = Some q -> rank p <= 8 ->
  In (EvPushToHub r obj kw) h ->
  exists h1 h2,
    h = h1 ++ EvSaveModel :: h2 /\
    In (EvPushToHub r obj kw) h2 /\
    (rank p <= 7 -> In EvTrain h1).
Proof.
  induction h as [|ev h IH]; intros p q r obj kw Hf Hp Hin; [destruct Hin|].
  simpl in Hf. destruct (step p ev) as [p'|] eqn:Hs; [|discriminate Hf].
  destruct Hin as [-> | Hin].
  { destruct p, r; simpl in *; try discriminate Hs; lia. }
  destruct (Nat.le_gt_cases (rank p') 8) as [Hp'|Hp'].
  - destruct (IH p' q r obj kw Hf Hp' Hin) as (h1 & h2 & -> & Hin2 & Htrain).
    exists (ev :: h1), h2. split; [reflexivity | split; [assumption|]].
    intros Hp7. destruct (Nat.le_gt_cases (rank p') 7) as [H7|H7].
    + right. now apply Htrain.
    + left. destruct p, ev as [ | [] | | | | | | | | | [] | | ];
        simpl in *; try discriminate Hs; inversion Hs; subst; simpl in *;
        try lia; reflexivity.
  - destruct p, ev as [ | [] | | | | | | | | | [] | | ];
      simpl in *; try discriminate Hs; inversion Hs; subst; simpl in *;
      try lia.
    all: first
      [ solve [exists [], h; split; [reflexivity | split; [assumption | lia]]]
      | solve [destruct h; [destruct Hin | simpl in Hf; discriminate Hf]] ].
Qed.

(** X15.  Whatever is pushed to the hub was trained and saved first: every
    [push_to_hub] in a run comes after [trainer.save_model()], which comes
    after [trainer.train()]. *)
Theorem push_to_hub_comes_after_save_model (w : world) (a : fine_tune_args)
    (s : attrs) (r : role) (obj : pyobj) (kw : hub_kwargs) :
  In (EvPushToHub r obj kw) (history_of (run_fine_tune w a s)) ->
  exists h1 h2,
    history_of (run_fine_tune w a s) = h1 ++ EvSaveModel :: h2 /\
    In EvTrain h1 /\ In (EvPushToHub r obj kw) h2.
Proof.
  intros Hin.
  destruct (run_fine_tune_follows w a s) as (q & Hq & _).
  destruct (follow_push_after_save _ Start q r obj kw Hq (Nat.le_0_l _) Hin)
    as (h1 & h2 & E & Hin2 & Htrain).
  exists h1, h2. split; [exact E | split; [apply Htrain; cbn; lia | exact Hin2]].
Qed.

Lemma push_to_hub_comes_after_save_model_witness :
  exists h1 h2,
    history_of (run_fine_tune (quiet_world "/data/in") publishing_args init_attrs)
    = h1 ++ EvSaveModel :: h2 /\
    In EvTrain h1 /\
    In (EvPushToHub RTokenizer (PyObj 2 true)
          (hub_kwargs_of attrs_after_publishing_run)) h2.
Proof.
  apply (push_to_hub_comes_after_save_model (quiet_world "/data/in")
           publishing_args init_attrs).
  vm_compute. repeat first [left; reflexivity | right].
Defined.

Lemma load_models_on_return w s h :
  wp (load_models w) s h
    (fun r s' evs =>
       match r with
       | Returned _ =>
           exists n n' base base' m t,
             model_name s = Some n /\ tokenizer_name s = Some n' /\
             evs = fetch RModel (Py.str_of_opt (model_class s)) n base
                   ++ fetch RTokenizer (Py.str_of_opt (tokenizer_class s)) n' base' /\
             s' = set_tokenizer t (set_model m s)
       | Raised _ => True
       end).
Proof.
  unfold_methods. wp_run.
  all: by_exception; trivial.
  all: repeat match goal with
         | H : tokenizer_name (set_model _ _) = _ |- _ => cbn in H
         end.
  all: eexists _, _, _, _, _, _.
  all: split; [reflexivity|]; split; [eassumption|].
  all: unfold fetch;
    repeat match goal with
           | H : (_ =? "local") = _ |- _ => rewrite H; clear H
           end.
  all: split; reflexivity.
  Unshelve. all: exact EmptyString.
Qed.

Lemma fine_tune_try_on_return w a s :
  wp (fine_tune_try w a) s []
    (fun r s' evs =>
       match r with
       | Returned _ =>
           exists base base' p1 p2 training_args eval_result,
             evs = successful_try_events w a s' base base' p1 p2
                     training_args eval_result
       | Raised _ => True
       end).
Proof.
  unfold fine_tune_try. wp_step.
  eapply wp_bind_spec; [apply load_models_on_return | | trivial].
  intros ? s1 evs1 H1. cbv beta iota in H1.
  destruct H1 as (n & n' & base & base' & m & t & Hn & Hn' & -> & ->).
  cbn in Hn, Hn'. inversion Hn; inversion Hn'; subst n n'. clear Hn Hn'.
  eapply wp_bind_spec; [apply preprocess_data_on_return | | trivial].
  intros ? s2 evs2 H2. cbv beta iota in H2.
  destruct H2 as (p1 & p2 & d & -> & Hs2).
  cbn [eval set_tokenizer set_model assign_args] in Hs2 |- *.
  unfold trainer_output_dir.
  assert (Hcfg : eval s2 = arg_eval a /\
                 output_dir s2 = Some (output_folder w) /\
                 hf_repo_id s2 = arg_hf_repo_id a).
  { destruct (arg_eval a) eqn:E; [destruct Hs2 as (d' & ->) | subst s2];
      repeat split; exact E. }
  destruct Hcfg as (Heval & Hdir & Hrepo). clear Hs2.
  repeat (wp_step; rewrite ?Heval, ?Hdir, ?Hrepo).
  all: cbv beta iota; trivial.
  all: try (eapply wp_mono; [apply upload_to_hf_hub_on_return|];
            cbv beta; intros [[]|e] s' evs (-> & Hevs); [subst evs | trivial]).
  all: unfold successful_try_events.
  all: repeat match goal with
         | H : arg_eval _ = _ |- _ => rewrite H; clear H
         | H : Py.truthy_opt_str _ = _ |- _ => rewrite H; clear H
         end.
  all: eexists _, _, _, _, _, _.
  all: cbn [app]; repeat rewrite <- app_assoc; cbn [app].
  all: reflexivity.
  Unshelve. all: exact EmptyString.
Qed.

Lemma run_fine_tune_attrs w a s :
  attrs_of (run_fine_tune w a s) = attrs_of (fine_tune_try w a s []).
Proof.
  unfold run_fine_tune.
  destruct (outcome_of (fine_tune_try w a s [])) as [[]|e] eqn:Htry.
  - now rewrite (fine_tune_after_return w a s [] Htry).
  - destruct (exn_is_Exception e) eqn:Hexc.
    + now rewrite (fine_tune_after_raise w a s [] e Htry Hexc).
    + now rewrite (fine_tune_uncaught w a s [] e Htry Hexc).
Qed.

Lemma run_fine_tune_returns w a s :
  outcome_of (run_fine_tune w a s) = Returned tt ->
  outcome_of (fine_tune_try w a s []) = Returned tt.
Proof.
  unfold run_fine_tune. intros Hret.
  destruct (outcome_of (fine_tune_try w a s [])) as [[]|e] eqn:Htry;
    [reflexivity|].
  exfalso. destruct (exn_is_Exception e) eqn:Hexc.
  - rewrite (fine_tune_after_raise w a s [] e Htry Hexc) in Hret.
    unfold outcome_of in Hret. simpl in Hret.
    destruct (state_set_state w _ _ _); discriminate Hret.
  - rewrite (fine_tune_uncaught w a s [] e Htry Hexc) in Hret.
    discriminate Hret.
Qed.

(** X16.  A run that returns has made exactly the calls of the pipeline,
    with the arguments of the call, followed by the success record. *)
Theorem successful_run_history (w : world) (a : fine_tune_args) (s : attrs) :
  outcome_of (run_fine_tune w a s) = Returned tt ->
  exists base base' p1 p2 training_args eval_result,
    history_of (run_fine_tune w a s)
    = successful_try_events w a (attrs_of (run_fine_tune w a s))
        base base' p1 p2 training_args eval_result
      ++ [EvSetState (self_id w) success_record].
Proof.
  intros Hret. apply run_fine_tune_returns in Hret.
  rewrite run_fine_tune_history, run_fine_tune_attrs.
  pose proof (wp_history _ _ _ (fine_tune_try_on_return w a s)) as H.
  cbv beta in H. rewrite Hret in H |- *.
  destruct H as (base & base' & p1 & p2 & ta & er & ->).
  now exists base, base', p1, p2, ta, er.
Qed.

Lemma successful_run_history_witness :
  exists base base' p1 p2 training_args eval_result,
    history_of (run_fine_tune (quiet_world "/data/in") publishing_args init_attrs)
    = successful_try_events (quiet_world "/data/in") publishing_args
        (attrs_of (run_fine_tune (quiet_world "/data/in") publishing_args init_attrs))
        base base' p1 p2 training_args eval_result
      ++ [EvSetState (self_id (quiet_world "/data/in")) success_record].
Proof.
  apply (successful_run_history (quiet_world "/data/in") publishing_args init_attrs).
  reflexivity.
Defined.

(** ** What a run hands to [from_pretrained] and to the trainer *)

Lemma pretrained_locations_app (r : role) (h1 h2 : history) :
  pretrained_locations r (h1 ++ h2)
  = pretrained_locations r h1 ++ pretrained_locations r h2.
Proof.
  induction h1 as [|ev h1 IH]; simpl; [reflexivity|].
  destruct ev as [| r' c loc | | | | | | | | | | | ]; try exact IH.
  destruct r', r; simpl; rewrite ?IH; reflexivity.
Qed.

Lemma trainer_eval_datasets_app (h1 h2 : history) :
  trainer_eval_datasets (h1 ++ h2)
  = trainer_eval_datasets h1 ++ trainer_eval_datasets h2.
Proof.
  induction h1 as [|ev h1 IH]; simpl; [reflexivity|].
  destruct ev; simpl; rewrite ?IH; reflexivity.
Qed.

(** The events of a run that returns. *)
Lemma run_fine_tune_on_return w a s :
  outcome_of (run_fine_tune w a s) = Returned tt ->
  exists base base' p1 p2 training_args eval_result,
    history_of (run_fine_tune w a s)
    = successful_try_events w a (attrs_of (run_fine_tune w a s))
        base base' p1 p2 training_args eval_result
      ++ [EvSetState (self_id w) success_record].
Proof.
  intros Hret. apply run_fine_tune_returns in Hret.
  rewrite run_fine_tune_history, run_fine_tune_attrs.
  pose proof (wp_history _ _ _ (fine_tune_try_on_return w a s)) as H.
  cbv beta in H. rewrite Hret in H |- *.
  destruct H as (base & base' & p1 & p2 & ta & er & ->).
  now exists base, base', p1, p2, ta, er.
Qed.

Lemma run_fine_tune_eval w a s :
  eval (attrs_of (run_fine_tune w a s)) = arg_eval a.
Proof.
  destruct (emits_fine_tune w _ _ (frame_config w _) a s []
              (fun _ _ => Logic.I) eq_refl) as (_ & _ & _ & H).
  change (eval (attrs_of (run_fine_tune w a s)))
    with (eval (config_only (attrs_of (run_fine_tune w a s)))).
  unfold run_fine_tune. rewrite H. reflexivity.
Qed.

(** The events of [pushes] are calls of the hub. *)
Lemma pretrained_locations_pushes r r' target kw :
  pretrained_locations r (pushes r' target kw) = [].
Proof.
  unfold pushes. destruct target as [obj|]; [|reflexivity].
  destruct (obj_truthy obj); reflexivity.
Qed.

Lemma trainer_eval_datasets_pushes r target kw :
  trainer_eval_datasets (pushes r target kw) = [].
Proof.
  unfold pushes. destruct target as [obj|]; [|reflexivity].
  destruct (obj_truthy obj); reflexivity.
Qed.

Lemma trainer_eval_datasets_fetch r c name base :
  trainer_eval_datasets (fetch r c name base) = [].
Proof. unfold fetch. destruct (Py.lower name =? "local"); reflexivity. Qed.

Lemma pretrained_locations_fetch r r' c name base :
  pretrained_locations r (fetch r' c name base)
  = match r, r' with
    | RModel, RModel | RTokenizer, RTokenizer =>
        [if Py.lower name =? "local"
         then Py.os_path_join base "/model" else name]
    | _, _ => []
    end.
Proof.
  unfold fetch. destruct (Py.lower name =? "local"), r, r'; reflexivity.
Qed.

(** C8.  When the model name (or the tokenizer name) is ["local"] up to
    case, every location handed to [from_pretrained] at that call site is
    [os.path.join(p, "/model")], and that is ["/model"] for every base path
    [p]: the location does not depend on what [input.get()] returned.  A run
    that returns has made that call, once: the locations it handed over are
    exactly [["/model"]]. *)
Theorem local_location_ignores_input_path (w : world) (a : fine_tune_args)
    (s : attrs) (r : role) :
  Py.lower (arg_name r a) = "local" ->
  let h := history_of (run_fine_tune w a s) in
  Forall (fun loc => forall p, loc = Py.os_path_join p "/model" /\ loc = "/model")
    (pretrained_locations r h) /\
  (outcome_of (run_fine_tune w a s) = Returned tt ->
   pretrained_locations r h = ["/model"]).
Proof.
  intros Hlocal h. subst h. split.
  - apply pretrained_locations_Forall.
    eapply Forall_impl;
      [|apply (run_fine_tune_Forall w _ _ a s (frame_local w r))].
    + intros ev Hev c loc E p. rewrite (Hev c loc E). split; reflexivity.
    + intros id rec c loc E. discriminate E.
    + exists (arg_name r a). split; [destruct r; reflexivity | exact Hlocal].
  - intros Hret.
    destruct (run_fine_tune_on_return w a s Hret)
      as (base & base' & p1 & p2 & ta & er & ->).
    unfold successful_try_events.
    rewrite !pretrained_locations_app, !pretrained_locations_fetch.
    destruct (arg_eval a), (Py.truthy_opt_str (arg_hf_repo_id a));
      rewrite ?pretrained_locations_app, ?pretrained_locations_pushes;
      destruct r; cbn [arg_name] in Hlocal; rewrite Hlocal; reflexivity.
Qed.

(** The tokenizer name ["Local"] is local up to case. *)
Lemma local_location_ignores_input_path_witness :
  let h := history_of
             (run_fine_tune (quiet_world "/data/in") local_args init_attrs) in
  Py.lower (arg_name RTokenizer local_args) = "local" /\
  Forall (fun loc => forall p, loc = Py.os_path_join p "/model" /\ loc = "/model")
    (pretrained_locations RTokenizer h) /\
  pretrained_locations RTokenizer h = ["/model"].
Proof.
  intros h. split; [reflexivity|].
  destruct (local_location_ignores_input_path (quiet_world "/data/in")
              local_args init_attrs RTokenizer eq_refl) as [Hall Hone].
  split; [exact Hall | exact (Hone eq_refl)].
Defined.

(** C10.  In a run with [eval=False] every [Trainer] is constructed with
    [eval_dataset=None], whatever the attributes of the instance were when
    the run started.  A run that returns has constructed the trainer, once:
    the evaluation datasets it handed over are exactly [[None]]. *)
Theorem eval_false_trainer_gets_no_eval_dataset (w : world)
    (a : fine_tune_args) (s : attrs) :
  arg_eval a = false ->
  let h := history_of (run_fine_tune w a s) in
  Forall (fun d => d = None) (trainer_eval_datasets h) /\
  (outcome_of (run_fine_tune w a s) = Returned tt ->
   trainer_eval_datasets h = [None]).
Proof.
  intros Heval h. subst h. split.
  - apply trainer_eval_datasets_Forall.
    eapply Forall_impl;
      [|apply (run_fine_tune_Forall w _ _ a s (frame_eval_false w));
        [|exact Heval]].
    + intros ev (_ & _ & Htrainer). exact Htrainer.
    + intros id r. split; [reflexivity | split; intros; discriminate].
  - intros Hret.
    destruct (run_fine_tune_on_return w a s Hret)
      as (base & base' & p1 & p2 & ta & er & ->).
    unfold successful_try_events.
    rewrite !trainer_eval_datasets_app, !trainer_eval_datasets_fetch, Heval.
    destruct (Py.truthy_opt_str (arg_hf_repo_id a));
      rewrite ?trainer_eval_datasets_app, ?trainer_eval_datasets_pushes;
      cbn [trainer_eval_datasets app trainer_kwargs_of tk_eval_dataset];
      rewrite run_fine_tune_eval, Heval; reflexivity.
Qed.

(** The instance still holds the evaluation dataset of an earlier run. *)
Lemma eval_false_trainer_gets_no_eval_dataset_witness :
  let h := history_of
             (run_fine_tune (quiet_world "/data/in") default_args
                attrs_after_eval_run) in
  arg_eval default_args = false /\
  eval_dataset attrs_after_eval_run = Some (PyObj 7 true) /\
  Forall (fun d => d = None) (trainer_eval_datasets h) /\
  trainer_eval_datasets h = [None].
Proof.
  intros h. split; [reflexivity | split; [reflexivity|]].
  destruct (eval_false_trainer_gets_no_eval_dataset (quiet_world "/data/in")
              default_args attrs_after_eval_run eq_refl) as [Hall Hone].
  split; [exact Hall | exact (Hone eq_refl)].
Defined.

(** The dataset an earlier run left on the instance is not handed to the
    trainer. *)
Example stale_eval_dataset_is_not_passed :
  trainer_eval_datasets
    (history_of
       (run_fine_tune (quiet_world "/data/in") default_args attrs_after_eval_run))
  = [None].
Proof. reflexivity. Qed.

Lemma carries_load_models_events w a s' evs :
  forallb is_load_models_event evs = true -> Forall (carries w a s') evs.
Proof.
  rewrite forallb_forall, Forall_forall. intros H ev Hin.
  specialize (H ev Hin). destruct ev; try discriminate H; exact Logic.I.
Qed.

Lemma carries_preprocess_events w a s' evs :
  forallb is_preprocess_event evs = true -> Forall (carries w a s') evs.
Proof.
  rewrite forallb_forall, Forall_forall. intros H ev Hin.
  specialize (H ev Hin). destruct ev; try discriminate H; exact Logic.I.
Qed.

Lemma upload_to_hf_hub_carries w a s h :
  wp (upload_to_hf_hub w) s h
    (fun _ s' evs => s' = s /\ Forall (carries w a s) evs).
Proof.
  unfold_methods. wp_run.
  all: by_exception; (split; [reflexivity|]).
  all: repeat (apply Forall_cons || apply Forall_nil); cbn; auto.
Qed.

Lemma load_models_keeps_configuration w s h :
  wp (load_models w) s h
    (fun _ s' evs =>
       forallb is_load_models_event evs = true /\
       config_only s' = config_only s).
Proof.
  apply wp_and; [apply load_models_scope|].
  eapply wp_mono; [apply load_models_attrs|].
  intros [[]|e] s' evs H; cbv beta iota in H.
  - destruct H as (m & t & _ & _ & _ & _ & _ & _ & _ & _ & ->). reflexivity.
  - destruct H as [-> | (m & ->)]; reflexivity.
Qed.

Lemma preprocess_data_keeps_configuration w s h :
  wp (preprocess_data w) s h
    (fun r s' evs =>
       forallb is_preprocess_event evs = true /\
       match r with
       | Returned _ =>
           config_only s' = config_only s /\
           model s' = model s /\ tokenizer s' = tokenizer s
       | Raised _ => True
       end).
Proof.
  apply wp_and; [apply preprocess_data_scope|].
  eapply wp_mono; [apply preprocess_data_on_return|].
  intros [[]|e] s' evs H; cbv beta iota in H; [|exact Logic.I].
  destruct H as (p1 & p2 & d & _ & H).
  destruct (eval s); [destruct H as (d' & ->) | subst s']; repeat split.
Qed.

Lemma fine_tune_try_carries w a s :
  wp (fine_tune_try w a) s [] (fun _ s' evs => Forall (carries w a s') evs).
Proof.
  unfold fine_tune_try. wp_step.
  eapply wp_bind_spec; [apply load_models_keeps_configuration | |].
  2: { intros e s1 evs1 (H & _). now apply carries_load_models_events. }
  intros ? s1 evs1 (Hev1 & Hcfg1).
  eapply wp_bind_spec; [apply preprocess_data_keeps_configuration | |].
  2: { intros e s2 evs2 (H & _). apply Forall_app. split.
       - now apply carries_load_models_events.
       - now apply carries_preprocess_events. }
  intros ? s2 evs2 (Hev2 & Hcfg2 & _ & _).
  assert (Hcfg : config_only s2 = config_only (assign_args w a s))
    by congruence.
  assert (Heval : eval s2 = arg_eval a)
    by exact (f_equal eval Hcfg).
  assert (Hdir : output_dir s2 = Some (output_folder w))
    by exact (f_equal output_dir Hcfg).
  clear Hcfg Hcfg1 Hcfg2. unfold trainer_output_dir.
  repeat (wp_step; rewrite ?Hdir, ?Heval).
  all: cbv beta iota.
  all: try (eapply wp_mono; [apply (upload_to_hf_hub_carries w a)|];
            cbv beta; intros ? s' evs (-> & Hup)).
  all: by_exception.
  all: apply Forall_app; split; [now apply carries_load_models_events|].
  all: apply Forall_app; split; [now apply carries_preprocess_events|].
  all: repeat (apply Forall_cons || apply Forall_nil); try assumption.
  all: cbn [carries]; try exact Logic.I; auto.
  all: unfold trainer_kwargs_of; cbn; rewrite ?Heval.
  all: try match goal with H : arg_eval _ = _ |- _ => rewrite H end.
  all: auto.
Qed.

(** X17.  In any run, [TrainingArguments] gets the output folder joined with
    [model] and the arguments of the call; [Trainer] gets the model, tokenizer
    and train dataset the instance holds, and its eval dataset only if [eval]
    is set; every push carries a handle and the hub attributes of the
    instance. *)
Theorem trainer_and_hub_get_what_the_instance_holds (w : world)
    (a : fine_tune_args) (s : attrs) :
  Forall (carries w a (attrs_of (run_fine_tune w a s)))
    (history_of (run_fine_tune w a s)).
Proof.
  rewrite run_fine_tune_history, run_fine_tune_attrs.
  apply Forall_app. split.
  - exact (wp_history _ _ _ (fine_tune_try_carries w a s)).
  - destruct (outcome_of (fine_tune_try w a s [])) as [[]|e].
    + repeat constructor.
    + destruct (exn_is_Exception e); repeat constructor.
Qed.

Example trainer_and_hub_example :
  let r := run_fine_tune (quiet_world "/data/in") publishing_args init_attrs in
  In (EvTrainer
        (TrainerKwargs (Some (PyObj 1 true)) (PyObj 4 true)
           (Some (PyObj 3 true)) (Some (PyObj 3 true)) (Some (PyObj 2 true))))
     (history_of r) /\
  model (attrs_of r) = Some (PyObj 1 true).
Proof.
  split; [|reflexivity].
  vm_compute. repeat first [left; reflexivity | right].
Qed.

Lemma preprocess_data_without_loader w s h :
  wp (preprocess_data (with_loader abstract_load_dataset w)) s h
    (fun r _ evs =>
       (exists e, r = Raised e) /\ forallb is_preprocess_event evs = true).
Proof.
  unfold_methods. wp_run.
  all: try match goal with
           | H : subclass_load_dataset _ _ _ = Returned _ |- _ =>
               discriminate H
           end.
  all: by_exception; (split; [eauto | reflexivity]).
Qed.

Lemma fine_tune_try_without_loader w a s :
  wp (fine_tune_try (with_loader abstract_load_dataset w) a) s []
    (fun r _ evs =>
       (exists e, r = Raised e) /\ forallb is_prelude_event evs = true).
Proof.
  unfold fine_tune_try. wp_step.
  eapply wp_bind_spec; [apply load_models_scope | |].
  2: { intros e s1 evs1 H. split; [eauto|].
       rewrite forallb_forall in *. intros ev Hin. unfold is_prelude_event.
       now rewrite (H ev Hin). }
  intros ? s1 evs1 H1.
  eapply wp_bind_spec; [apply preprocess_data_without_loader | |].
  { intros ? s2 evs2 ((e & E) & _). discriminate E. }
  intros e s2 evs2 (_ & H2). split; [eauto|].
  rewrite forallb_app. apply andb_true_iff. split.
  - rewrite forallb_forall in *. intros ev Hin. unfold is_prelude_event.
    now rewrite (H1 ev Hin).
  - rewrite forallb_forall in *. intros ev Hin. unfold is_prelude_event.
    rewrite (H2 ev Hin). apply orb_true_r.
Qed.

(** X18.  With the [load_dataset] of the base class (it raises
    [NotImplementedError]) every run fails before training: apart from the
    calls of [load_models] and [preprocess_data], the only thing it does is
    record the failure. *)
Theorem base_class_loader_never_trains (w : world) (a : fine_tune_args)
    (s : attrs) :
  let r := run_fine_tune (with_loader abstract_load_dataset w) a s in
  (exists e, outcome_of r = Raised e) /\
  forallb (fun ev => is_prelude_event ev || is_set_state ev) (history_of r)
    = true.
Proof.
  intros r. subst r. set (w' := with_loader abstract_load_dataset w).
  destruct (wp_history _ _ _ (fine_tune_try_without_loader w a s))
    as ((e & He) & Hev).
  fold w' in He, Hev. split.
  - unfold run_fine_tune. destruct (exn_is_Exception e) eqn:Hexc.
    + rewrite (fine_tune_after_raise w' a s [] e He Hexc).
      unfold outcome_of at 1. cbn [fst].
      destruct (state_set_state w' _ _ _); eexists; reflexivity.
    + rewrite (fine_tune_uncaught w' a s [] e He Hexc).
      eexists. reflexivity.
  - rewrite run_fine_tune_history, forallb_app, He.
    apply andb_true_iff. split.
    + rewrite forallb_forall in *. intros ev Hin. now rewrite (Hev ev Hin).
    + destruct (exn_is_Exception e); reflexivity.
Qed.



Section ArgmaxBounds.

Local Open Scope nat_scope.

Lemma argmax_scan_bound (row : list float) : forall mp max_ind i,
  max_ind < i -> Numpy.argmax_scan mp max_ind i row < i + length row.
Proof.
  induction row as [|x row IH]; intros mp max_ind i Hlt; simpl; [lia|].
  destruct (negb (PrimFloat.leb x mp)).
  - destruct (Numpy.is_nan x); [lia|].
    specialize (IH x i (S i)). lia.
  - specialize (IH mp max_ind (S i)). lia.
Qed.

Lemma argmax_row_bound (row : list float) (k : nat) :
  Numpy.argmax_row row = Returned k -> k < length row.
Proof.
  destruct row as [|x row]; simpl; [discriminate|].
  destruct (Numpy.is_nan x); intros E; inversion E; subst; [lia|].
  pose proof (argmax_scan_bound row x 0 1). lia.
Qed.

Lemma argmax_rows_bound (c : nat) (m : list (list float)) :
  Forall (fun row => length row = S c) m ->
  exists idx, Numpy.argmax_rows m = Returned idx /\
              length idx = length m /\
              Forall (fun i => i < S c) idx.
Proof.
  induction 1 as [|row m Hrow _ (idx & E & Hlen & Hidx)]; simpl.
  - exists []. auto.
  - destruct (Numpy.argmax_row row) as [i|e] eqn:Ei.
    + rewrite E. exists (i :: idx). simpl. split; [reflexivity|].
      split; [now rewrite Hlen|]. constructor; [|assumption].
      apply argmax_row_bound in Ei. lia.
    + destruct row; [discriminate Hrow|]. simpl in Ei.
      destruct (Numpy.is_nan f); discriminate Ei.
Qed.

End ArgmaxBounds.

Lemma argmax_predictions_bound (m : Numpy.ndarray) :
  Numpy.columns m <> 0%nat -> Numpy.well_shaped m ->
  exists preds,
    argmax_predictions m = Returned preds /\
    length preds = length (Numpy.rows m) /\
    Forall (fun p => (0 <= p < Z.of_nat (Numpy.columns m))%Z) preds.
Proof.
  intros Hc Hshape. unfold Numpy.well_shaped in Hshape.
  destruct (Numpy.columns m) as [|c] eqn:Ec; [congruence|].
  destruct (argmax_rows_bound c _ Hshape) as (idx & E & Hlen & Hidx).
  unfold argmax_predictions, Numpy.argmax_axis1. rewrite Ec, E.
  exists (map Z.of_nat idx).
  split; [reflexivity | split; [now rewrite length_map|]].
  apply Forall_map. eapply Forall_impl; [|exact Hidx].
  intros i Hi. cbv beta in *. lia.
Qed.

(** X19.  On a score matrix with at least one column, [np.argmax(..., axis=1)]
    gives one prediction per row, each the index of a column. *)
Theorem argmax_predictions_are_column_indices (m : Numpy.ndarray) :
  Numpy.columns m <> 0%nat -> Numpy.well_shaped m ->
  exists preds,
    argmax_predictions m = Returned preds /\
    length preds = length (Numpy.rows m) /\
    Forall (fun p => (0 <= p < Z.of_nat (Numpy.columns m))%Z) preds.
Proof. apply argmax_predictions_bound. Qed.

Lemma argmax_predictions_are_column_indices_witness :
  exists preds,
    argmax_predictions three_column_scores = Returned preds /\
    length preds = length (Numpy.rows three_column_scores) /\
    Forall (fun p => (0 <= p < Z.of_nat (Numpy.columns three_column_scores))%Z)
      preds.
Proof.
  apply (argmax_predictions_are_column_indices three_column_scores).
  - discriminate.
  - repeat constructor.
Defined.

Example three_column_argmax :
  argmax_predictions three_column_scores = Returned [2; 0]%Z.
Proof. reflexivity. Qed.

(** X20.  When the number of labels differs from the number of rows,
    [compute_metrics] raises [ValueError]. *)
Theorem compute_metrics_rejects_length_mismatch (m : Numpy.ndarray)
    (labels : list Z) :
  Numpy.columns m <> 0%nat -> Numpy.well_shaped m ->
  length labels <> length (Numpy.rows m) ->
  exists e, compute_metrics (m, labels) = Raised e /\
            exn_class e = "ValueError".
Proof.
  intros Hc Hshape Hlen.
  destruct (argmax_predictions_bound m Hc Hshape) as (preds & E & Hl & _).
  unfold compute_metrics. rewrite E.
  unfold Sklearn.accuracy_score, Sklearn.check_targets.
  rewrite Hl. apply Nat.eqb_neq in Hlen. rewrite Hlen. cbn.
  eexists. split; reflexivity.
Qed.

Lemma compute_metrics_rejects_length_mismatch_witness :
  exists e, compute_metrics (example_predictions, [0; 1]%Z) = Raised e /\
            exn_class e = "ValueError".
Proof.
  apply (compute_metrics_rejects_length_mismatch example_predictions [0; 1]%Z).
  - discriminate.
  - repeat constructor.
  - discriminate.
Defined.



Section Perfect.

Lemma count_pairs_diagonal (f : Z -> Z -> bool) (l : list Z) :
  Sklearn.count_pairs f l l = length (filter (fun x => f x x) l).
Proof.
  unfold Sklearn.count_pairs. induction l as [|x l IH]; simpl; [reflexivity|].
  destruct (f x x); simpl; now rewrite IH.
Qed.

Lemma filter_all {A : Type} (f : A -> bool) (l : list A) :
  (forall x, f x = true) -> filter f l = l.
Proof.
  intros H. induction l as [|x l IH]; simpl; [reflexivity|].
  now rewrite H, IH.
Qed.

Lemma Qred_diagonal (n : nat) :
  (0 < n)%nat -> Qred (Z.of_nat n # Pos.of_nat n) = 1%Q.
Proof.
  intros Hn. change 1%Q with (Qred 1). apply Qred_complete.
  unfold Qeq. simpl. rewrite inject_Z_of_nat_pos by assumption. lia.
Qed.

Lemma prf_divide_diagonal (n : nat) :
  Sklearn.prf_divide n n = if (n =? 0)%nat then 0%Q else 1%Q.
Proof.
  destruct n as [|n]; [reflexivity|]. unfold Sklearn.prf_divide.
  now rewrite Qred_diagonal by lia.
Qed.

Lemma filter_positive_nonempty (l : list Z) :
  In 1%Z l <-> length (filter (fun x => Z.eqb x 1 && Z.eqb x 1) l) <> 0%nat.
Proof.
  induction l as [|x l IH]; simpl; [tauto|].
  destruct (Z.eqb_spec x 1); simpl.
  - split; [discriminate | auto].
  - rewrite <- IH. split; [intros [E|H]; [congruence | exact H] | auto].
Qed.

End Perfect.

(** X22.  When the predictions are the labels, accuracy is 1; precision,
    recall and F1 are 1 when the positive label occurs, and 0 (the
    [zero_division] default) when it does not. *)
Theorem perfect_predictions_score (m : Numpy.ndarray) (labels : list Z) :
  Numpy.columns m = 2%nat -> Numpy.well_shaped m ->
  Numpy.rows m <> [] ->
  argmax_predictions m = Returned labels ->
  exists r,
    compute_metrics (m, labels) = Returned r /\
    accuracy r = Num 1 /\
    (In 1%Z labels ->
     precision r = Num 1 /\ recall r = Num 1 /\ f1 r = Num 1) /\
    (~ In 1%Z labels ->
     precision r = Num 0 /\ recall r = Num 0 /\ f1 r = Num 0).
Proof.
  intros Hc Hshape Hrows Hperfect.
  destruct (argmax_predictions_two_columns m Hc Hshape)
    as (preds & E & Hlen & Hbin).
  rewrite Hperfect in E. inversion E; subst preds. clear E.
  assert (Hn : (0 < length labels)%nat).
  { rewrite Hlen. destruct (Numpy.rows m); [congruence | simpl; lia]. }
  unfold compute_metrics. rewrite Hperfect.
  unfold Sklearn.accuracy_score, Sklearn.precision_recall_fscore_support_binary.
  rewrite (check_targets_binary labels labels eq_refl Hbin Hbin).
  rewrite (pos_label_is_valid labels labels Hbin Hbin).
  rewrite !count_pairs_diagonal.
  rewrite (filter_all (fun x => Z.eqb x x)) by apply Z.eqb_refl.
  replace (filter (fun x => Z.eqb x 1) labels)
    with (filter (fun x => Z.eqb x 1 && Z.eqb x 1) labels)
    by (apply filter_ext; intros x; apply andb_diag).
  rewrite prf_divide_diagonal.
  pose proof (filter_positive_nonempty labels) as Hpos.
  set (k := length (filter (fun x => Z.eqb x 1 && Z.eqb x 1) labels)) in *.
  eexists. split; [reflexivity|]. cbn [accuracy precision recall f1].
  split.
  { unfold Sklearn.average. destruct (length labels) eqn:El; [lia|].
    rewrite <- El, Qred_diagonal by lia. reflexivity. }
  split; intros H1.
  - apply Hpos in H1. apply Nat.eqb_neq in H1. rewrite H1. repeat split.
  - assert (k = 0%nat) as -> by (destruct (Nat.eq_dec k 0); tauto).
    repeat split.
Qed.

Lemma perfect_predictions_score_witness :
  exists r,
    compute_metrics (example_predictions, [0; 1; 1]%Z) = Returned r /\
    accuracy r = Num 1 /\
    (In 1%Z [0; 1; 1]%Z ->
     precision r = Num 1 /\ recall r = Num 1 /\ f1 r = Num 1) /\
    (~ In 1%Z [0; 1; 1]%Z ->
     precision r = Num 0 /\ recall r = Num 0 /\ f1 r = Num 0).
Proof.
  apply (perfect_predictions_score example_predictions [0; 1; 1]%Z).
  - reflexivity.
  - repeat constructor.
  - discriminate.
  - reflexivity.
Defined.

(** Perfect predictions on data without a positive label. *)
Example perfect_predictions_without_positives :
  compute_metrics (Numpy.NdArray 2 [[0.9; 0.1]; [0.8; 0.2]]%float, [0; 0]%Z)
  = Returned {| accuracy := Num 1; precision := Num 0;
                recall := Num 0; f1 := Num 0 |}.
Proof. reflexivity. Qed.
